(** * asgardeo-cli: the authenticated HTTP request core and the command gate

    A shallow embedding of [internal/api/http_client.go] and
    [internal/cmd/root.go].  Go strings are byte sequences and are modelled
    as [string] (a list of 8-bit [ascii]); the mutable objects a caller can
    observe (the pointee of a payload pointer, the requests handed to the
    transport, the diagnostics sink) live in an explicit [State] that every
    effectful function threads.  The Go standard library functions the code
    calls ([strings.Join], [strings.ReplaceAll], [url.PathEscape],
    [URL.String], [http.Header]) are modelled after their
    implementation; collaborators whose code is outside the two files
    (JSON codec, network transport, contexts, tenant configuration, session
    setup) are fields of the [World] class. *)

From Stdlib Require Import ZArith NArith Ascii String List Bool Lia.
From stdpp Require Import base functions gmap strings.

Local Open Scope string_scope.
Local Open Scope Z_scope.

(** ** Package [strings] *)

Module strings.

(** [strings.Join(elems, sep)]. *)
Fixpoint Join (elems : list string) (sep : string) : string :=
  match elems with
  | [] => ""
  | [e] => e
  | e :: rest => e +:+ sep +:+ Join rest sep
  end.

(** [strings.HasPrefix(s, prefix)]. *)
Fixpoint HasPrefix (s prefix : string) : bool :=
  match prefix, s with
  | EmptyString, _ => true
  | String _ _, EmptyString => false
  | String p prefix', String c s' => Ascii.eqb p c && HasPrefix s' prefix'
  end.

(** The scan of [strings.Replace(s, old, new, -1)] for a non-empty [old]:
    left to right, non-overlapping.  [skip] counts the bytes of a match
    that are still to be passed over. *)
Fixpoint replaceFrom (old new : string) (skip : nat) (s : string) : string :=
  match s with
  | EmptyString => EmptyString
  | String c s' =>
      match skip with
      | S k => replaceFrom old new k s'
      | O =>
          if HasPrefix s old
          then new +:+ replaceFrom old new (Nat.pred (String.length old)) s'
          else String c (replaceFrom old new O s')
      end
  end.

(** [strings.ReplaceAll(s, old, new)].  Go returns [s] itself when
    [old == new]; the empty pattern (which Go matches at every rune
    boundary) does not occur in this program and is left as the
    identity. *)
Definition ReplaceAll (s old new : string) : string :=
  if String.eqb old new then s
  else match old with
       | EmptyString => s
       | String _ _ => replaceFrom old new O s
       end.

(** [strings.Split(s, sep)] for a one-byte separator: one piece more
    than there are separators, so the empty string gives one empty
    piece. *)
Fixpoint SplitByte (s : string) (sep : ascii) : list string :=
  match s with
  | EmptyString => [EmptyString]
  | String c s' =>
      if Ascii.eqb c sep then EmptyString :: SplitByte s' sep
      else match SplitByte s' sep with
           | [] => [String c EmptyString]
           | piece :: pieces => String c piece :: pieces
           end
  end.

(** [strings.IndexByte(s, c) >= 0]. *)
Fixpoint ContainsByte (s : string) (c : ascii) : bool :=
  match s with
  | EmptyString => false
  | String d s' => Ascii.eqb d c || ContainsByte s' c
  end.

(** [strings.TrimPrefix(s, prefix)]. *)
Definition TrimPrefix (s prefix : string) : string :=
  if HasPrefix s prefix
  then String.substring (String.length prefix)
         (String.length s - String.length prefix)%nat s
  else s.

End strings.

(** ** Package [net/url] *)

Module url.

Inductive encoding : Set :=
| encodePath | encodePathSegment | encodeHost | encodeZone
| encodeUserPassword | encodeQueryComponent | encodeFragment.

Definition between (lo hi c : ascii) : bool :=
  ((N_of_ascii lo <=? N_of_ascii c) && (N_of_ascii c <=? N_of_ascii hi))%N.

Definition oneOf (c : ascii) (set : string) : bool :=
  strings.ContainsByte set c.

(** [shouldEscape(c, mode)]. *)
Definition shouldEscape (c : ascii) (mode : encoding) : bool :=
  if between "a" "z" c || between "A" "Z" c || between "0" "9" c then false
  else if (match mode with encodeHost | encodeZone => true | _ => false end)
          && (oneOf c "!$&'()*+,;=:[]<>" || Ascii.eqb c (ascii_of_nat 34))
  then false
  else if oneOf c "-_.~" then false
  else if oneOf c "$&+,/:;=?@"
          && (match mode with
              | encodePath | encodePathSegment | encodeUserPassword
              | encodeQueryComponent | encodeFragment => true
              | _ => false
              end)
  then match mode with
       | encodePath => Ascii.eqb c "?"
       | encodePathSegment => oneOf c "/;,?"
       | encodeUserPassword => oneOf c "@/?:"
       | encodeQueryComponent => true
       | _ => false
       end
  else if (match mode with encodeFragment => true | _ => false end)
          && oneOf c "!()*"
  then false
  else true.

Definition upperhex (n : N) : ascii :=
  match String.get (N.to_nat n) "0123456789ABCDEF" with
  | Some h => h
  | None => "0"%char
  end.

(** What the second loop of [escape] writes for one byte. *)
Definition escapeByte (c : ascii) (mode : encoding) : string :=
  if Ascii.eqb c " " && (match mode with encodeQueryComponent => true | _ => false end)
  then "+"
  else if shouldEscape c mode
  then String "%" (String (upperhex (N.shiftr (N_of_ascii c) 4))
                     (String (upperhex (N.land (N_of_ascii c) 15)) EmptyString))
  else String c EmptyString.

Fixpoint escapeBytes (s : string) (mode : encoding) : string :=
  match s with
  | EmptyString => EmptyString
  | String c s' => escapeByte c mode +:+ escapeBytes s' mode
  end.

(** The first loop of [escape]: how many bytes need rewriting
    ([spaceCount + hexCount]). *)
Fixpoint escapeCount (s : string) (mode : encoding) : nat :=
  match s with
  | EmptyString => O
  | String c s' =>
      ((if shouldEscape c mode then 1 else 0) + escapeCount s' mode)%nat
  end.

(** [escape(s, mode)]: the input is returned as it is when nothing needs
    escaping. *)
Definition escape (s : string) (mode : encoding) : string :=
  if Nat.eqb (escapeCount s mode) O then s else escapeBytes s mode.

(** [url.PathEscape(s)]. *)
Definition PathEscape (s : string) : string := escape s encodePathSegment.

(** [url.URL], with the fields this program sets or reads; the others
    ([Opaque], [User], [RawPath], [RawQuery], [Fragment], ...) keep their
    zero value in every URL the program renders. *)
Record URL : Set := { Scheme : string; Host : string; Path : string }.

(** [URL.EscapedPath] for an empty [RawPath]. *)
Definition EscapedPath (u : URL) : string :=
  if String.eqb (Path u) "*" then "*" else escape (Path u) encodePath.

Definition nonEmpty (s : string) : bool := negb (String.eqb s "").

(** The part of [path] before its first slash ([strings.Cut]). *)
Definition firstSegment (path : string) : string :=
  match strings.SplitByte path "/" with
  | seg :: _ => seg
  | [] => path
  end.

(** [URL.String] for a URL with no opaque part, user, query or
    fragment. *)
Definition String_ (u : URL) : string :=
  let buf := if nonEmpty (Scheme u) then Scheme u +:+ ":" else "" in
  let buf :=
    if nonEmpty (Scheme u) || nonEmpty (Host u) then
      let buf :=
        if nonEmpty (Host u) || nonEmpty (Path u) then buf +:+ "//" else buf in
      if nonEmpty (Host u) then buf +:+ escape (Host u) encodeHost else buf
    else buf in
  let path := EscapedPath u in
  let buf :=
    if nonEmpty path && negb (strings.HasPrefix path "/") && nonEmpty (Host u)
    then buf +:+ "/" else buf in
  let buf :=
    if String.eqb buf "" && strings.ContainsByte (firstSegment path) ":"
    then buf +:+ "./" else buf in
  buf +:+ path.

End url.

(** ** Errors *)

(** The error values the program builds or passes on.  [errorString] is an
    error made elsewhere (a library or a collaborator), [wrapError] is the
    value of [fmt.Errorf] with one [%w] verb: the formatted message and the
    wrapped error. *)
Inductive error : Set :=
| errorString (s : string)
| wrapError (msg : string) (err : error)
| UpstreamError (code : Z) (msg : string).

Inductive result (A : Type) : Type :=
| Ok (a : A)
| Err (err : error).
Arguments Ok {A} a.
Arguments Err {A} err.

Module fmt.

(** [err.Error()]. *)
Definition Error (err : error) : string :=
  match err with
  | errorString s => s
  | wrapError msg _ => msg
  | UpstreamError _ msg => msg
  end.

(** [fmt.Errorf(prefix + "%w", err)]. *)
Definition Errorf_w (prefix : string) (err : error) : error :=
  wrapError (prefix +:+ Error err) err.

(** [errors.Unwrap(err)]. *)
Definition Unwrap (err : error) : option error :=
  match err with
  | wrapError _ inner => Some inner
  | _ => None
  end.

End fmt.

(** ** Package [net/http] *)

(** A [context.Context] is a handle; whether it is done is read through
    [ctx_Err] of the [World]. *)
Definition Context : Set := nat.

Module textproto.

(** [validHeaderFieldByte]: the token bytes of RFC 7230. *)
Definition validHeaderFieldByte (c : ascii) : bool :=
  url.between "a" "z" c || url.between "A" "Z" c || url.between "0" "9" c
  || url.oneOf c "!#$%&'*+-.^_`|~".

Fixpoint allBytes (p : ascii -> bool) (s : string) : bool :=
  match s with
  | EmptyString => true
  | String c s' => p c && allBytes p s'
  end.

(** The casing loop of [canonicalMIMEHeaderKey]: upper case at the start
    and after each dash, lower case elsewhere. *)
Fixpoint canonical (upper : bool) (s : string) : string :=
  match s with
  | EmptyString => EmptyString
  | String c s' =>
      let c' :=
        if upper && url.between "a" "z" c then ascii_of_N (N_of_ascii c - 32)
        else if negb upper && url.between "A" "Z" c then ascii_of_N (N_of_ascii c + 32)
        else c in
      String c' (canonical (Ascii.eqb c' "-") s')
  end.

(** [textproto.CanonicalMIMEHeaderKey(s)]: a key holding a byte that is
    not a token byte is returned unchanged. *)
Definition CanonicalMIMEHeaderKey (s : string) : string :=
  if allBytes validHeaderFieldByte s then canonical true s else s.

End textproto.

Module http.

Definition StatusBadRequest : Z := 400.

(** [http.Header]: a map from canonical keys to the list of values. *)
Module Header.

Definition Values (h : gmap string (list string)) (key : string) : list string :=
  default [] (h !! textproto.CanonicalMIMEHeaderKey key).

Definition Add (h : gmap string (list string)) (key value : string)
  : gmap string (list string) :=
  let k := textproto.CanonicalMIMEHeaderKey key in
  <[k := (default [] (h !! k) ++ [value])%list]> h.

Definition Set_ (h : gmap string (list string)) (key value : string)
  : gmap string (list string) :=
  <[textproto.CanonicalMIMEHeaderKey key := [value]]> h.

Definition Get (h : gmap string (list string)) (key : string) : string :=
  match Values h key with
  | v :: _ => v
  | [] => ""
  end.

End Header.

Module Request.
Record t : Type := {
  Method : string;
  URL : url.URL;
  Header : gmap string (list string);
  Body : string;
  ctx : Context
}.

(** [req.Header.Set(key, value)]: the header map of the request is
    updated in place. *)
Definition setHeader (req : t) (key value : string) : t :=
  {| Method := Method req; URL := URL req;
     Header := Header.Set_ (Header req) key value;
     Body := Body req; ctx := ctx req |}.

Definition addHeader (req : t) (key value : string) : t :=
  {| Method := Method req; URL := URL req;
     Header := Header.Add (Header req) key value;
     Body := Body req; ctx := ctx req |}.
End Request.

Module Response.
(** [Body] is what [io.ReadAll(response.Body)] yields: the bytes of the
    body, or the read error. *)
Record t : Type := {
  StatusCode : Z;
  Body : result string
}.
End Response.

(** [validMethod]: a non-empty sequence of token bytes. *)
Definition validMethod (method : string) : bool :=
  url.nonEmpty method && textproto.allBytes textproto.validHeaderFieldByte method.

Definition quote (s : string) : string :=
  String (ascii_of_nat 34) (s +:+ String (ascii_of_nat 34) EmptyString).

(** [http.NewRequestWithContext(ctx, method, url, body)] for a non-nil
    context and a [bytes.Buffer] body; [Parse] is [url.Parse].  The new
    request has an empty header map.  (The message of the invalid-method
    error quotes the method with [%q], whose escaping of non-printable
    bytes is not reproduced.) *)
Definition NewRequestWithContext (Parse : string -> result url.URL)
    (ctx : Context) (method url_ body : string) : result Request.t :=
  let method := if String.eqb method "" then "GET" else method in
  if negb (validMethod method)
  then Err (errorString ("net/http: invalid method " +:+ quote method))
  else match Parse url_ with
       | Err err => Err err
       | Ok u => Ok {| Request.Method := method; Request.URL := u;
                       Request.Header := ∅; Request.Body := body;
                       Request.ctx := ctx |}
       end.

End http.

(** ** The world outside the two files

    Everything the two files call but do not define.  A theorem about the
    program holds for every [World]. *)
Class World : Type := {
  (** the dynamic Go values a payload can hold or point to.  The value of
      a heap cell is the pointee with all it holds (the maps, slices and
      pointers inside it): what the decoder writes through those is part
      of the new value of the cell. *)
  value : Type;
  (** [json.Marshal] of such a value *)
  json_Marshal : value -> result string;
  (** [checkValid]: the syntax check [json.Unmarshal] runs before it
      touches its target *)
  json_checkValid : string -> option error;
  (** decoding syntactically valid JSON into a target holding [v]: the
      target afterwards (it may be partly filled on a type mismatch) and
      the error, if any *)
  json_decode : string -> value -> value * option error;
  (** decoding syntactically valid JSON into an empty interface: the error,
      if any (a number that is out of range for a float64) *)
  json_decodeAny : string -> option error;
  url_Parse : string -> result url.URL;
  (** [c.client.Do(req)]: the round trip of the underlying [http.Client] *)
  client_Do : http.Request.t -> result http.Response.t;
  (** [ctx.Err()] when the transport has returned; [ctx.Done()] is closed
      exactly when it is not nil *)
  ctx_Err : Context -> option error;
  (** package [config] *)
  Config : Type;
  Tenant : Type;
  GetTenant : Config -> string -> result Tenant;
  Tenant_Name : Tenant -> string;
  GetAccessToken : Tenant -> string;
  (** the message the upstream service puts in an error body, and the
      generic message for a status code (used by [newError]) *)
  extractMessage : string -> option string;
  statusMessage : Z -> string;
  (** [cli.SetupWithAuthentication(ctx)] of package [core] *)
  SetupWithAuthentication : Context -> option error
}.

(** Heap cells are named by numbers. *)
Abbreviation loc := nat.

(** What the program does that can be seen from outside, in order. *)
Inductive event : Type :=
| EvLog (msg : string)              (* logger.Error(msg, ...) *)
| EvSend (req : http.Request.t)     (* the request handed to c.client.Do *)
| EvClose                           (* response.Body.Close() *)
| EvSetup (ctx : Context)           (* cli.SetupWithAuthentication(ctx) *)
| EvRun (commandPath : string).     (* the body of a command starts *)

Section Program.

Context {W : World}.

(** An [interface{}] payload: the nil interface, a pointer (nil or to a
    cell of the heap), or a value that is not a pointer. *)
Inductive iface : Type :=
| nilInterface
| pointer (p : option loc)
| nonPointer (v : value).

Record State : Type := {
  heap : loc -> value;
  trace : list event
}.

(** *** State passing *)

Definition M (A : Type) : Type := State -> A * State.

Definition ret {A} (a : A) : M A := fun σ => (a, σ).

Definition bind {A B} (m : M A) (k : A -> M B) : M B :=
  fun σ => let (a, σ') := m σ in k a σ'.

Definition emit (e : event) : M unit :=
  fun σ => (tt, {| heap := heap σ; trace := (trace σ ++ [e])%list |}).

Definition store (l : loc) (v : value) : M unit :=
  fun σ => (tt, {| heap := <[l := v]> (heap σ); trace := trace σ |}).

Definition load (l : loc) : M value := fun σ => (heap σ l, σ).

(** The state after the events [evs] have happened, the heap being as
    it was. *)
Definition emitted (σ : State) (evs : list event) : State :=
  {| heap := heap σ; trace := (trace σ ++ evs)%list |}.

(** [defer cleanup] around [body]: the cleanup runs when the body has
    produced its result. *)
Definition defer {A} (cleanup : M unit) (body : M A) : M A :=
  fun σ => let (a, σ') := body σ in (a, snd (cleanup σ')).

End Program.

Notation "'do' x <- m ; k" := (bind m (fun x => k))
  (at level 10, x name, m at level 100, k at level 200).
Notation "m ;; k" := (bind m (fun _ => k))
  (at level 100, k at level 200, right associativity).

(** ** Package [encoding/json] *)

Module json.
Section json.
Context {W : World}.

(** [json.Marshal(payload)]: a nil interface and a nil pointer give the
    null token, a pointer gives the encoding of what it points to. *)
Definition Marshal (payload : iface) : M (result string) :=
  match payload with
  | nilInterface => ret (Ok "null")
  | pointer None => ret (Ok "null")
  | pointer (Some l) => do v <- load l; ret (json_Marshal v)
  | nonPointer v => ret (json_Marshal v)
  end.

Definition newline : string := String (ascii_of_nat 10) EmptyString.

(** [json.NewEncoder(&buf).Encode(payload)] on an empty buffer: the
    encoding followed by a newline; nothing is written on error. *)
Definition Encode (payload : iface) : M (result string) :=
  do r <- Marshal payload;
  match r with
  | Ok s => ret (Ok (s +:+ newline))
  | Err err => ret (Err err)
  end.

(** [json.Unmarshal(data, &payload)] where [payload] is a local
    variable of type [interface{}].  Invalid JSON is refused before
    anything is written.  Otherwise, when the interface holds a non-nil
    pointer the data is decoded into what it points to; in every other
    case the decoded value is stored in the local variable itself,
    which the caller never sees, and only the error of that decoding
    comes back.  (For the JSON
    null literal and a pointer to something that is not itself a pointer,
    Go clears the local variable and leaves the cell alone: there
    [json_decode] is the identity, with no error.) *)
Definition Unmarshal (data : string) (payload : iface) : M (option error) :=
  match json_checkValid data with
  | Some err => ret (Some err)
  | None =>
      match payload with
      | pointer (Some l) =>
          do v <- load l;
          let (v', err) := json_decode data v in
          store l v' ;; ret err
      | _ => ret (json_decodeAny data)
      end
  end.

End json.
End json.

(** ** Package [api]: [internal/api/http_client.go] *)

Module api.
Section api.
Context {W : World}.

Record httpClient : Type := {
  baseUrl : url.URL;
  basepath : string;
  token : string
}.

(** [NewHTTPClientAPI(cfg, tenantDomain, logger)]. *)
Definition NewHTTPClientAPI (cfg : Config) (tenantDomain : string)
  : M (result httpClient) :=
  match GetTenant cfg tenantDomain with
  | Err err =>
      emit (EvLog "failed to get tenant while creating http client") ;;
      ret (Err err)
  | Ok tenant =>
      let basepath := "t/" +:+ Tenant_Name tenant +:+ "/api/server/v1" in
      match url_Parse "https://api.asgardeo.io/" with
      | Err err =>
          emit (EvLog "failed to parse base URL while creating http client") ;;
          ret (Err err)
      | Ok u =>
          ret (Ok {| basepath := basepath; baseUrl := u;
                     token := GetAccessToken tenant |})
      end
  end.

Definition nullBody : string := "null" +:+ json.newline.

(** [c.NewRequest(ctx, method, uri, payload)]. *)
Definition NewRequest (c : httpClient) (ctx : Context) (method uri : string)
    (payload : iface) : M (result http.Request.t) :=
  do encoded <-
    match payload with
    | nilInterface => ret (Ok "")
    | _ => json.Encode payload
    end;
  match encoded with
  | Err err => ret (Err (fmt.Errorf_w "encoding request payload failed: " err))
  | Ok body =>
      let body := if String.eqb body nullBody then "" else body in
      match http.NewRequestWithContext url_Parse ctx method uri body with
      | Err err => ret (Err err)
      | Ok request =>
          ret (Ok (http.Request.addHeader request "Content-Type" "application/json"))
      end
  end.

(** [c.Do(req)].  The [select] with a [default] branch reads whether
    [ctx.Done()] is closed at that moment. *)
Definition Do (c : httpClient) (req : http.Request.t) : M (result http.Response.t) :=
  let ctx := http.Request.ctx req in
  let req := http.Request.setHeader req "Authorization" ("Bearer " +:+ token c) in
  emit (EvSend req) ;;
  match client_Do req with
  | Err err =>
      match ctx_Err ctx with
      | Some ctxErr => ret (Err ctxErr)
      | None => ret (Err err)
      end
  | Ok response => ret (Ok response)
  end.

(** Modelled from the spec: [newError(response)], defined in a file of
    package [api] that is not part of the sources at hand.  It reads the
    body, tries to extract the message of the upstream service, and
    returns a structured error carrying the status code and that
    message; when the body does not have the expected shape the message
    is a generic one built from the status code alone. *)
Definition newError (response : http.Response.t) : error :=
  let code := http.Response.StatusCode response in
  let extracted :=
    match http.Response.Body response with
    | Ok body => extractMessage body
    | Err _ => None
    end in
  UpstreamError code (default (statusMessage code) extracted).

(** [c.Request(ctx, method, uri, payload)]. *)
Definition Request (c : httpClient) (ctx : Context) (method uri : string)
    (payload : iface) : M (option error) :=
  do r <- NewRequest c ctx method uri payload;
  match r with
  | Err err => ret (Some (fmt.Errorf_w "failed to create a new request: " err))
  | Ok request =>
      do r <- Do c request;
      match r with
      | Err err =>
          emit (EvLog "failed to send the request with http client") ;;
          ret (Some (fmt.Errorf_w "failed to send the request: " err))
      | Ok response =>
          defer (emit EvClose)
            (if http.StatusBadRequest <=? http.Response.StatusCode response
             then
               emit (EvLog "received an error response from the server") ;;
               ret (Some (newError response))
             else
               match http.Response.Body response with
               | Err err =>
                   ret (Some (fmt.Errorf_w "failed to read the response body: " err))
               | Ok responseBody =>
                   if (0 <? String.length responseBody)%nat
                      && negb (String.eqb responseBody "{}")
                   then
                     do err <- json.Unmarshal responseBody payload;
                     match err with
                     | Some err =>
                         ret (Some (fmt.Errorf_w
                                      "failed to unmarshal response payload: " err))
                     | None => ret None
                     end
                   else ret None
               end)
      end
  end.

(** [c.URI(path...)].  The loop appends one escaped segment per
    element of [path]. *)
Definition URI (c : httpClient) (path : list string) : string :=
  let baseURL :=
    {| url.Scheme := url.Scheme (baseUrl c);
       url.Host := url.Host (baseUrl c);
       url.Path := basepath c +:+ "/" |} in
  let escapedForwardSlash := "%2F" in
  let escapedPath :=
    fold_left
      (fun escapedPath unescapedPath =>
         let defaultPathEscaped := url.PathEscape unescapedPath in
         (escapedPath
            ++ [strings.ReplaceAll defaultPathEscaped "/" escapedForwardSlash])%list)
      path [] in
  url.String_ baseURL +:+ strings.Join escapedPath "/".

End api.
End api.

(** ** Package [cmd]: [internal/cmd/root.go] *)

Module cmd.
Section cmd.
Context {W : World}.

Definition commandsWithNoAuthRequired : gmap string bool :=
  <["asgardeo login" := true]> (<["asgardeo logout" := true]> ∅).

(** [commandRequiresAuthentication(invokedCommandName)]: a key that is
    not in the map reads as [false]. *)
Definition commandRequiresAuthentication (invokedCommandName : string) : bool :=
  negb (default false (commandsWithNoAuthRequired !! invokedCommandName)).

(** The [PersistentPreRunE] hook of the root command, for the command
    whose [CommandPath()] is [commandPath] and whose context is [ctx]. *)
Definition PersistentPreRunE (commandPath : string) (ctx : Context)
  : M (option error) :=
  if negb (commandRequiresAuthentication commandPath) then ret None
  else
    emit (EvSetup ctx) ;;
    match SetupWithAuthentication ctx with
    | Some err =>
        emit (EvLog "Authentication setup failed") ;;
        ret (Some (fmt.Errorf_w "authentication failed: " err))
    | None => ret None
    end.

(** How cobra runs a command below the root, once it has parsed the
    command line and found a runnable command to run (no help or version
    flag, arguments that validate): the persistent pre-run hook first; its
    error, if any, is returned and the body is not called; otherwise the
    body [RunE] runs. *)
Definition execute (commandPath : string) (ctx : Context)
    (RunE : M (option error)) : M (option error) :=
  do err <- PersistentPreRunE commandPath ctx;
  match err with
  | Some err => ret (Some err)
  | None => emit (EvRun commandPath) ;; RunE
  end.

End cmd.
End cmd.

(** ** The URI builder without the replacement step

    The builder as one would write it from its description alone: the base
    URL followed by the path-escaped segments joined with slashes.  It is
    compared with [api.URI] below. *)
Definition URI_joining_escaped (c : api.httpClient) (path : list string) : string :=
  url.String_ {| url.Scheme := url.Scheme (api.baseUrl c);
                 url.Host := url.Host (api.baseUrl c);
                 url.Path := api.basepath c +:+ "/" |}
  +:+ strings.Join (map url.PathEscape path) "/".

(** ** The body of an outgoing request

    The contents of the body buffer of [NewRequest] when the request is
    made: nothing for a nil payload, else the encoding of the payload with
    its newline, cleared when it is the null token. *)
Definition requestBody {W : World} (payload : iface) (σ : State) : result string :=
  match payload with
  | nilInterface => Ok ""
  | _ => match fst (json.Marshal payload σ) with
         | Ok s => let body := s +:+ json.newline in
                   Ok (if String.eqb body api.nullBody then "" else body)
         | Err err => Err (fmt.Errorf_w "encoding request payload failed: " err)
         end
  end.

(** The request [Do] hands to the transport. *)
Definition authorized (c : api.httpClient) (req : http.Request.t) : http.Request.t :=
  http.Request.setHeader req "Authorization" ("Bearer " +:+ api.token c).

(** ** A small concrete world

    Used to run the program on concrete inputs: values are their own JSON
    text, decoding overwrites the target, and the transport, the contexts
    and the session setup are given by the caller. *)

Module sample.

Definition apiURL : url.URL :=
  {| url.Scheme := "https"; url.Host := "api.asgardeo.io"; url.Path := "/" |}.

Definition Parse (s : string) : result url.URL :=
  if String.eqb s "https://api.asgardeo.io/" then Ok apiURL
  else if strings.HasPrefix s "https://api.asgardeo.io/"
  then Ok {| url.Scheme := "https"; url.Host := "api.asgardeo.io";
             url.Path := String "/" (strings.TrimPrefix s "https://api.asgardeo.io/") |}
  else Err (errorString "parse: unsupported URL").

Definition decode (data : string) (target : string) : string * option error :=
  if strings.HasPrefix data "{" then (data, None)
  else (target, Some (errorString "json: cannot unmarshal into Go value")).

(** Decoding into an empty interface fails on a number too large for a
    float64. *)
Definition decodeAny (data : string) : option error :=
  if strings.HasPrefix data "1e999"
  then Some (errorString "json: cannot unmarshal number 1e999 into Go value of type float64")
  else None.

Definition world
    (transport : http.Request.t -> result http.Response.t)
    (ctxErr : Context -> option error)
    (setup : Context -> option error) : World :=
  {| value := string;
     json_Marshal := fun v => Ok v;
     json_checkValid := fun _ => None;
     json_decode := decode;
     json_decodeAny := decodeAny;
     url_Parse := Parse;
     client_Do := transport;
     ctx_Err := ctxErr;
     Config := unit;
     Tenant := string * string;
     GetTenant := fun _ domain => Ok (domain, "token-of-" +:+ domain);
     Tenant_Name := fst;
     GetAccessToken := snd;
     extractMessage := fun body => if String.eqb body "" then None else Some body;
     statusMessage := fun _ => "unexpected status";
     SetupWithAuthentication := setup |}.

Definition Canceled : error := errorString "context canceled".
Definition refused : error := errorString "dial tcp: connection refused".

Definition respond (code : Z) (body : string) : http.Request.t -> result http.Response.t :=
  fun _ => Ok {| http.Response.StatusCode := code; http.Response.Body := Ok body |}.

(** A world whose transport answers every request with [code] and [body]. *)
Definition answering (code : Z) (body : string) : World :=
  world (respond code body) (fun _ => None) (fun _ => None).

(** A world whose transport fails, the context being done or not. *)
Definition failing (ctxErr : option error) : World :=
  world (fun _ => Err refused) (fun _ => ctxErr) (fun _ => None).

(** A world with the given outcome of the session setup. *)
Definition session (setup : option error) : World :=
  world (respond 200 "{}") (fun _ => None) (fun _ => setup).

Definition noSession : World := session (Some (errorString "no active session")).

Definition client (tenant : string) : api.httpClient :=
  {| api.baseUrl := apiURL;
     api.basepath := "t/" +:+ tenant +:+ "/api/server/v1";
     api.token := "token-of-" +:+ tenant |}.

(** A request that already carries an Authorization header. *)
Definition staleRequest : http.Request.t :=
  {| http.Request.Method := "GET";
     http.Request.URL :=
       {| url.Scheme := "https"; url.Host := "api.asgardeo.io";
          url.Path := "/t/acme/api/server/v1/applications" |};
     http.Request.Header :=
       http.Header.Add (http.Header.Add ∅ "Content-Type" "application/json")
         "Authorization" "Basic stale";
     http.Request.Body := "";
     http.Request.ctx := 7%nat |}.

(** The request [NewRequest] makes for a POST of the JSON text [body] to
    the applications resource of tenant acme. *)
Definition posted (body : string) : http.Request.t :=
  {| http.Request.Method := "POST";
     http.Request.URL :=
       {| url.Scheme := "https"; url.Host := "api.asgardeo.io";
          url.Path := "/t/acme/api/server/v1/applications" |};
     http.Request.Header := http.Header.Add ∅ "Content-Type" "application/json";
     http.Request.Body := body +:+ json.newline;
     http.Request.ctx := 7%nat |}.

Definition start {W : World} (v : value) : State :=
  {| heap := fun _ => v; trace := [] |}.

End sample.

(** ** Package [errors] *)

Module errors.

#[global] Instance error_eq_dec : EqDecision error.
Proof. solve_decision. Defined.

(** [errors.Is(err, target)]: [err] or an error it wraps, at any depth,
    equals [target]. *)
Fixpoint Is (err target : error) : bool :=
  bool_decide (err = target)
  || match err with
     | wrapError _ inner => Is inner target
     | _ => false
     end.

End errors.

(** ** Reading a trace *)

Definition isSend (e : event) : bool :=
  match e with EvSend _ => true | _ => false end.

Definition isClose (e : event) : bool :=
  match e with EvClose => true | _ => false end.

(** ** Reading an escaped path segment back

    The way back from [url.PathEscape]: a percent sign and two hexadecimal
    digits stand for one byte, every other byte stands for itself.  The
    program never decodes a segment; this is the measure of what the
    escaping keeps. *)

Definition unhex (c : ascii) : N :=
  if url.between "0" "9" c then N_of_ascii c - 48
  else if url.between "A" "F" c then N_of_ascii c - 55
  else 0.

Fixpoint unescapeSegment (s : string) : string :=
  match s with
  | String "%" (String h (String l rest)) =>
      String (ascii_of_N (unhex h * 16 + unhex l)) (unescapeSegment rest)
  | String c rest => String c (unescapeSegment rest)
  | EmptyString => EmptyString
  end.

(** The bytes an escaped path segment is made of: letters, digits, the
    marks and sub-delimiters that [url.PathEscape] lets through, and the
    percent sign of an escape.  No slash, question mark, hash, semicolon,
    comma, space, quote, control byte or byte above 127 is among them. *)
Definition segmentByte (c : ascii) : bool :=
  url.between "a" "z" c || url.between "A" "Z" c || url.between "0" "9" c
  || url.oneOf c "-_.~$&+:=@%".

(** The URL that [URI] starts from. *)
Definition baseOf (c : api.httpClient) : string :=
  url.String_ {| url.Scheme := url.Scheme (api.baseUrl c);
                 url.Host := url.Host (api.baseUrl c);
                 url.Path := api.basepath c +:+ "/" |}.

(** ** Package [cmd], the runner: [configLogger] and [Execute] *)

Module runner.

(** The operating system and the logging library, as [configLogger] calls
    them. *)
Class Host : Type := {
  os_Getwd : result string;
  (** [os.MkdirAll(path, perm)]: the error, if any *)
  os_MkdirAll : string -> Z -> option error;
  filepath_Join : string -> string -> string;
  (** [config.Build()] of the logging library for a production
      configuration with the given output and error output paths: the
      error, if the logger cannot be built *)
  zap_Build : list string -> list string -> option error
}.

(** What the process does around the request core, in order.  Entries of
    the logger and the events of a command are in the [trace] of the
    [State]. *)
Inductive effect : Type :=
| FxMkdirAll (path : string) (perm : Z)
| FxBuild (outputs errorOutputs : list string)
| FxNewConfig (withLogger : bool)   (* config.NewConfig(logger); false for a nil logger *)
| FxStderr (text : string)          (* fmt.Fprintf(os.Stderr, ...) *)
| FxExit (code : Z)                 (* os.Exit(code): nothing runs after it *)
| FxCancel                          (* the deferred cancel() *)
| FxSync.                           (* the deferred logger.Sync() *)

(** A built logger, known by where it writes. *)
Record Logger : Type := {
  OutputPaths : list string;
  ErrorOutputPaths : list string
}.

Definition isExit (fx : effect) : bool :=
  match fx with FxExit _ => true | _ => false end.

Definition isStderr (fx : effect) : bool :=
  match fx with FxStderr _ => true | _ => false end.

Definition isSync (fx : effect) : bool :=
  match fx with FxSync => true | _ => false end.

Section runner.
Context {W : World} {H : Host}.

(** [configLogger()], with the effects it has. *)
Definition configLogger : result Logger * list effect :=
  match os_Getwd with
  | Err err => (Err (fmt.Errorf_w "failed to get user home directory: " err), [])
  | Ok cwd =>
      let logDir := filepath_Join cwd "logs" in
      match os_MkdirAll logDir 493 with
      | Some err =>
          (Err (fmt.Errorf_w "failed to create log directory: " err),
           [FxMkdirAll logDir 493])
      | None =>
          let logFilePath := filepath_Join logDir "asgardeo-cli.log" in
          (match zap_Build [logFilePath] [logFilePath] with
           | Some err => Err err
           | None => Ok {| OutputPaths := [logFilePath];
                           ErrorOutputPaths := [logFilePath] |}
           end,
           [FxMkdirAll logDir 493; FxBuild [logFilePath] [logFilePath]])
      end
  end.

(** What cobra makes of the command line in [rootCmd.ExecuteContext],
    before any hook runs.  It answers by itself, and returns no error, a
    help flag, a version flag on a command that has a version, and a
    command that is not runnable (for these it prints to standard
    output); it refuses, by returning the error, an unknown command and
    flags or arguments that do not parse or validate; otherwise it runs
    the command with path [commandPath]: the persistent pre-run hook of
    the root command (no command below the root defining one of its own)
    and then [RunE], which stands for what follows the hook. *)
Inductive dispatch : Type :=
| answers
| refuses (err : error)
| runs (commandPath : string) (RunE : M (option error)).

(** [rootCmd.ExecuteContext(ctx)].  The root command silences cobra's own
    printing of errors and usage. *)
Definition ExecuteContext (d : dispatch) (ctx : Context) : M (option error) :=
  match d with
  | answers => ret None
  | refuses err => ret (Some err)
  | runs commandPath RunE => cmd.execute commandPath ctx RunE
  end.

(** [Execute()], for a command line of which cobra makes [d]; [ctx] is the
    context made by [context.WithCancel], which [handleSignals] cancels on
    an interrupt (that is seen through [ctx_Err]).  The commands are built
    without effects.  [os.Exit] ends the process at once, so the deferred
    calls run only when [Execute] returns. *)
Definition Execute (d : dispatch) (ctx : Context) (σ : State) : State * list effect :=
  let (logger, made) := configLogger in
  match logger with
  | Err err =>
      (σ, made ++ [FxNewConfig false;
                   FxStderr ("Error initializing logger: " +:+ fmt.Error err
                             +:+ json.newline);
                   FxExit 1])%list
  | Ok _ =>
      let (err, σ') := ExecuteContext d ctx σ in
      match err with
      | Some err =>
          (emitted σ' [EvLog "Command execution failed"],
           made ++ [FxNewConfig true;
                    FxStderr ("Error: " +:+ fmt.Error err +:+ json.newline);
                    FxExit 1])%list
      | None => (σ', made ++ [FxNewConfig true; FxCancel; FxSync])%list
      end
  end.

End runner.

(** A host with a working directory, and one without. *)
Definition homeHost : Host :=
  {| os_Getwd := Ok "/home/dev";
     os_MkdirAll := fun _ _ => None;
     filepath_Join := fun dir name => dir +:+ "/" +:+ name;
     zap_Build := fun _ _ => None |}.

Definition lostHost : Host :=
  {| os_Getwd := Err (errorString "getwd: no such file or directory");
     os_MkdirAll := fun _ _ => None;
     filepath_Join := fun dir name => dir +:+ "/" +:+ name;
     zap_Build := fun _ _ => None |}.

End runner.

(** * Properties *)

Example canonical_key : textproto.CanonicalMIMEHeaderKey "content-type" = "Content-Type".
Proof. reflexivity. Qed.

Example PathEscape_slash : url.PathEscape "a/b c" = "a%2Fb%20c".
Proof. reflexivity. Qed.

Example String_base :
  url.String_ {| url.Scheme := "https"; url.Host := "api.asgardeo.io";
                 url.Path := "t/acme/api/server/v1/" |}
  = "https://api.asgardeo.io/t/acme/api/server/v1/".
Proof. reflexivity. Qed.

Example URI_two_segments :
  api.URI (sample.client "acme") ["applications"; "a/b"]
  = "https://api.asgardeo.io/t/acme/api/server/v1/applications/a%2Fb".
Proof. reflexivity. Qed.

(** ** Strings *)

Section StringFacts.

Lemma app_cons c s t : String c s +:+ t = String c (s +:+ t).
Proof. reflexivity. Qed.

Lemma app_nil_l s : "" +:+ s = s.
Proof. reflexivity. Qed.

Lemma app_nil_r s : s +:+ "" = s.
Proof. induction s as [|c s IH]; [reflexivity|]. now rewrite app_cons, IH. Qed.

Lemma app_assoc s t u : (s +:+ t) +:+ u = s +:+ (t +:+ u).
Proof. induction s as [|c s IH]; [reflexivity|]. now rewrite !app_cons, IH. Qed.

Lemma ContainsByte_app s t c :
  strings.ContainsByte (s +:+ t) c
  = strings.ContainsByte s c || strings.ContainsByte t c.
Proof.
  induction s as [|d s IH]; [reflexivity|].
  rewrite app_cons. simpl. now rewrite IH, orb_assoc.
Qed.

Lemma HasPrefix_app p r : strings.HasPrefix (p +:+ r) p = true.
Proof.
  induction p as [|c p IH]; [now destruct r|].
  rewrite app_cons. simpl. now rewrite Ascii.eqb_refl, IH.
Qed.

Lemma substring_app p r :
  String.substring (String.length p) (String.length r) (p +:+ r) = r.
Proof.
  induction p as [|c p IH]; simpl.
  - rewrite app_nil_l. induction r as [|d r IHr]; simpl; [reflexivity|].
    now rewrite IHr.
  - exact IH.
Qed.

Lemma length_app s t :
  String.length (s +:+ t) = (String.length s + String.length t)%nat.
Proof. induction s as [|c s IH]; [reflexivity|]. rewrite app_cons. simpl. now rewrite IH. Qed.

(** Cutting a prefix off what was built by appending to it. *)
Lemma TrimPrefix_app p r : strings.TrimPrefix (p +:+ r) p = r.
Proof.
  unfold strings.TrimPrefix. rewrite HasPrefix_app, length_app.
  replace (String.length p + String.length r - String.length p)%nat
    with (String.length r) by lia.
  apply substring_app.
Qed.

(** Replacing a byte that does not occur changes nothing. *)
Lemma replaceFrom_absent (c : ascii) new s :
  strings.ContainsByte s c = false ->
  strings.replaceFrom (String c "") new O s = s.
Proof.
  induction s as [|d s IH]; [reflexivity|].
  simpl. intros H. apply orb_false_elim in H as [Hd Hs].
  rewrite Ascii.eqb_sym in Hd. rewrite Hd. simpl. now rewrite IH.
Qed.

Lemma ReplaceAll_absent (c : ascii) new s :
  strings.ContainsByte s c = false ->
  strings.ReplaceAll s (String c "") new = s.
Proof.
  intros H. unfold strings.ReplaceAll.
  destruct (String.eqb _ new); [reflexivity|]. now apply replaceFrom_absent.
Qed.

(** A piece without the separator is one piece. *)
Lemma SplitByte_absent s sep :
  strings.ContainsByte s sep = false -> strings.SplitByte s sep = [s].
Proof.
  induction s as [|d s IH]; [reflexivity|].
  simpl. intros H. apply orb_false_elim in H as [Hd Hs].
  now rewrite Hd, IH.
Qed.

Lemma SplitByte_app s sep rest :
  strings.ContainsByte s sep = false ->
  strings.SplitByte (s +:+ String sep rest) sep = s :: strings.SplitByte rest sep.
Proof.
  induction s as [|d s IH]; intros H.
  - rewrite app_nil_l. simpl. now rewrite Ascii.eqb_refl.
  - simpl in H. apply orb_false_elim in H as [Hd Hs].
    rewrite app_cons. simpl. now rewrite Hd, IH.
Qed.

(** Splitting what [Join] built gives the pieces back, when there is at
    least one piece and no piece holds the separator. *)
Lemma SplitByte_Join pieces sep :
  pieces <> [] ->
  Forall (fun piece => strings.ContainsByte piece sep = false) pieces ->
  strings.SplitByte (strings.Join pieces (String sep "")) sep = pieces.
Proof.
  induction pieces as [|p rest IH]; [congruence|].
  intros _ Hall. inversion Hall as [|? ? Hp Hrest]; subst.
  destruct rest as [|q rest].
  - simpl. now apply SplitByte_absent.
  - change (strings.Join (p :: q :: rest) (String sep ""))
      with (p +:+ String sep "" +:+ strings.Join (q :: rest) (String sep "")).
    rewrite app_cons, app_nil_l, SplitByte_app by assumption.
    f_equal. apply IH; [congruence | assumption].
Qed.

Lemma fold_left_snoc {A B} (f : A -> B) (l : list A) (acc : list B) :
  fold_left (fun acc x => (acc ++ [f x])%list) l acc = (acc ++ map f l)%list.
Proof.
  revert acc. induction l as [|x l IH]; intros acc; simpl.
  - now rewrite List.app_nil_r.
  - rewrite IH. now rewrite <- List.app_assoc.
Qed.

End StringFacts.

(** ** URLs *)

Section UrlFacts.

Lemma shouldEscape_space mode : url.shouldEscape " " mode = true.
Proof. now destruct mode. Qed.

Lemma escapeByte_kept c mode :
  url.shouldEscape c mode = false -> url.escapeByte c mode = String c "".
Proof.
  intros H. unfold url.escapeByte.
  destruct (Ascii.eqb c " ") eqn:E.
  - apply Ascii.eqb_eq in E. subst c. rewrite shouldEscape_space in H. discriminate.
  - simpl. now rewrite H.
Qed.

Lemma escapeBytes_kept s mode :
  url.escapeCount s mode = O -> url.escapeBytes s mode = s.
Proof.
  induction s as [|c s IH]; [reflexivity|].
  simpl. destruct (url.shouldEscape c mode) eqn:E; [discriminate|].
  intros H. rewrite (escapeByte_kept _ _ E), IH by exact H. reflexivity.
Qed.

(** The early return of [escape] agrees with its byte-wise loop. *)
Lemma escape_escapeBytes s mode : url.escape s mode = url.escapeBytes s mode.
Proof.
  unfold url.escape. destruct (Nat.eqb _ O) eqn:E; [|reflexivity].
  apply Nat.eqb_eq in E. now rewrite escapeBytes_kept.
Qed.

Lemma escapeBytes_app s t mode :
  url.escapeBytes (s +:+ t) mode = url.escapeBytes s mode +:+ url.escapeBytes t mode.
Proof.
  induction s as [|c s IH]; [reflexivity|].
  rewrite app_cons. simpl. now rewrite IH, app_assoc.
Qed.

Lemma escape_app s t mode :
  url.escape (s +:+ t) mode = url.escape s mode +:+ url.escape t mode.
Proof. rewrite !escape_escapeBytes. apply escapeBytes_app. Qed.

(** Whatever a byte becomes in a path segment, it holds no slash. *)
Lemma escapeByte_no_slash c :
  strings.ContainsByte (url.escapeByte c url.encodePathSegment) "/" = false.
Proof.
  destruct c as [b0 b1 b2 b3 b4 b5 b6 b7].
  destruct b0, b1, b2, b3, b4, b5, b6, b7; vm_compute; reflexivity.
Qed.

Lemma PathEscape_no_slash s : strings.ContainsByte (url.PathEscape s) "/" = false.
Proof.
  unfold url.PathEscape. rewrite escape_escapeBytes.
  induction s as [|c s IH]; [reflexivity|].
  simpl. now rewrite ContainsByte_app, escapeByte_no_slash, IH.
Qed.

Lemma EscapedPath_tenant scheme host name :
  url.EscapedPath {| url.Scheme := scheme; url.Host := host;
                     url.Path := ("t/" +:+ name +:+ "/api/server/v1") +:+ "/" |}
  = "t/" +:+ url.escape name url.encodePath +:+ "/api/server/v1/".
Proof.
  unfold url.EscapedPath. cbn [url.Path].
  rewrite !app_cons, !app_nil_l. simpl.
  rewrite !escape_escapeBytes. cbn [url.escapeBytes].
  rewrite !escapeBytes_app, !app_assoc. reflexivity.
Qed.

Lemma String_tenant name :
  url.String_ {| url.Scheme := "https"; url.Host := "api.asgardeo.io";
                 url.Path := ("t/" +:+ name +:+ "/api/server/v1") +:+ "/" |}
  = "https://api.asgardeo.io/t/" +:+ url.escape name url.encodePath
    +:+ "/api/server/v1/".
Proof.
  unfold url.String_. rewrite EscapedPath_tenant. reflexivity.
Qed.
End UrlFacts.

(** ** The URI builder *)

Section UriFacts.

Lemma URI_unfold c path :
  api.URI c path
  = url.String_ {| url.Scheme := url.Scheme (api.baseUrl c);
                   url.Host := url.Host (api.baseUrl c);
                   url.Path := api.basepath c +:+ "/" |}
    +:+ strings.Join
          (map (fun segment => strings.ReplaceAll (url.PathEscape segment) "/" "%2F")
             path) "/".
Proof. unfold api.URI. now rewrite fold_left_snoc. Qed.

Lemma ReplaceAll_PathEscape segment :
  strings.ReplaceAll (url.PathEscape segment) "/" "%2F" = url.PathEscape segment.
Proof. apply ReplaceAll_absent, PathEscape_no_slash. Qed.

Lemma URI_joins_escaped c path : api.URI c path = URI_joining_escaped c path.
Proof.
  rewrite URI_unfold. unfold URI_joining_escaped. do 2 f_equal.
  apply map_ext. intros segment. apply ReplaceAll_PathEscape.
Qed.

Lemma PathEscape_slash_inside a b :
  url.PathEscape (a +:+ "/" +:+ b) = url.PathEscape a +:+ "%2F" +:+ url.PathEscape b.
Proof. unfold url.PathEscape. now rewrite !escape_app. Qed.

Lemma escaped_pieces_no_slash path :
  Forall (fun piece => strings.ContainsByte piece "/" = false)
    (map url.PathEscape path).
Proof. apply Forall_map, Forall_forall. intros s _. apply PathEscape_no_slash. Qed.

End UriFacts.

(** C10: replacing "/" by "%2F" in the result of [url.PathEscape] changes
    nothing, because [url.PathEscape] leaves no slash behind; so [api.URI]
    equals, on every client and every list of segments, the builder that
    joins the path-escaped segments after the base URL. *)
Theorem URI_slash_replacement_is_noop :
  (forall segment : string,
      strings.ContainsByte (url.PathEscape segment) "/" = false
      /\ strings.ReplaceAll (url.PathEscape segment) "/" "%2F" = url.PathEscape segment)
  /\ (forall (c : api.httpClient) (path : list string),
         api.URI c path = URI_joining_escaped c path).
Proof.
  split.
  - intros segment. split; [apply PathEscape_no_slash | apply ReplaceAll_PathEscape].
  - apply URI_joins_escaped.
Qed.

(** C1, amended: for the client built for a tenant, [URI] returns
    "https://api.asgardeo.io/t/<tenant>/api/server/v1/", the tenant name
    path-escaped as the URL rendering does (so verbatim when no byte of it
    needs escaping), followed by the path-escaped segments joined by "/";
    a slash inside a segment becomes "%2F" and no escaped segment holds a
    slash; and for a non-empty list of segments, splitting what follows
    the base path on "/" gives back the escaped segments, one per
    segment. *)
Theorem URI_shape {W : World} (cfg : Config) (tenantDomain : string)
    (tenant : Tenant) (σ : State) :
  url_Parse "https://api.asgardeo.io/"
    = Ok {| url.Scheme := "https"; url.Host := "api.asgardeo.io"; url.Path := "/" |} ->
  GetTenant cfg tenantDomain = Ok tenant ->
  exists c : api.httpClient,
    api.NewHTTPClientAPI cfg tenantDomain σ = (Ok c, σ)
    /\ let base := "https://api.asgardeo.io/t/"
                   +:+ url.escape (Tenant_Name tenant) url.encodePath
                   +:+ "/api/server/v1/" in
       (url.escapeCount (Tenant_Name tenant) url.encodePath = O ->
        base = "https://api.asgardeo.io/t/" +:+ Tenant_Name tenant +:+ "/api/server/v1/")
       /\ forall path : list string,
           api.URI c path = base +:+ strings.Join (map url.PathEscape path) "/"
           /\ Forall (fun piece => strings.ContainsByte piece "/" = false)
                (map url.PathEscape path)
           /\ (forall a b : string,
                  url.PathEscape (a +:+ "/" +:+ b)
                  = url.PathEscape a +:+ "%2F" +:+ url.PathEscape b)
           /\ (path <> [] ->
               strings.SplitByte (strings.TrimPrefix (api.URI c path) base) "/"
               = map url.PathEscape path
               /\ length (strings.SplitByte (strings.TrimPrefix (api.URI c path) base) "/")
                  = length path).
Proof.
  intros Hparse Htenant. eexists. split.
  - unfold api.NewHTTPClientAPI. rewrite Htenant, Hparse. reflexivity.
  - cbn zeta. split.
    + intros Hkept. unfold url.escape. now rewrite Hkept.
    + intros path.
      assert (Huri : api.URI
                {| api.baseUrl := {| url.Scheme := "https"; url.Host := "api.asgardeo.io";
                                     url.Path := "/" |};
                   api.basepath := "t/" +:+ Tenant_Name tenant +:+ "/api/server/v1";
                   api.token := GetAccessToken tenant |} path
              = ("https://api.asgardeo.io/t/"
                 +:+ url.escape (Tenant_Name tenant) url.encodePath
                 +:+ "/api/server/v1/")
                +:+ strings.Join (map url.PathEscape path) "/").
      { rewrite URI_joins_escaped. unfold URI_joining_escaped.
        cbn [api.baseUrl api.basepath url.Scheme url.Host].
        now rewrite String_tenant. }
      split; [exact Huri|].
      split; [apply escaped_pieces_no_slash|].
      split; [apply PathEscape_slash_inside|].
      intros Hne. rewrite Huri, TrimPrefix_app.
      rewrite SplitByte_Join.
      * split; [reflexivity | apply length_map].
      * now destruct path.
      * apply escaped_pieces_no_slash.
Qed.

Lemma URI_shape_witness :
  exists c : api.httpClient,
    api.NewHTTPClientAPI (W := sample.answering 200 "{}") tt "acme"
      (sample.start (W := sample.answering 200 "{}") "")
    = (Ok c, sample.start (W := sample.answering 200 "{}") "")
    /\ api.URI c ["applications"; "a/b"]
       = "https://api.asgardeo.io/t/acme/api/server/v1/applications/a%2Fb".
Proof.
  destruct (URI_shape (W := sample.answering 200 "{}") tt "acme"
              ("acme", "token-of-acme") (sample.start (W := sample.answering 200 "{}") "")
              eq_refl eq_refl) as [c [Hc [_ Hpath]]].
  exists c. split; [exact Hc|].
  rewrite (proj1 (Hpath _)). reflexivity.
Defined.

(** C1 as stated fails: with no segment at all the part after the base
    path is empty, and splitting it gives one piece, not zero (the result
    is the same as for one empty segment, so no way of counting pieces can
    tell the two apart); and a tenant name with a byte that needs escaping
    does not appear verbatim in the URL. *)
Lemma URI_segment_count_counterexample :
  let W := sample.answering 200 "{}" in
  let base := "https://api.asgardeo.io/t/acme/api/server/v1/" in
  api.NewHTTPClientAPI tt "acme" (sample.start "") = (Ok (sample.client "acme"), sample.start "")
  /\ api.URI (sample.client "acme") [] = api.URI (sample.client "acme") [""]
  /\ ~ (forall path : list string,
          length (strings.SplitByte
                    (strings.TrimPrefix (api.URI (sample.client "acme") path) base) "/")
          = length path)
  /\ api.NewHTTPClientAPI tt "a b" (sample.start "") = (Ok (sample.client "a b"), sample.start "")
  /\ api.URI (sample.client "a b") ["x"] = "https://api.asgardeo.io/t/a%20b/api/server/v1/x"
  /\ api.URI (sample.client "a b") ["x"]
     <> "https://api.asgardeo.io/" +:+ "t/a b/api/server/v1/" +:+ "x".
Proof.
  cbn zeta. split; [reflexivity|]. split; [reflexivity|]. split.
  - intros H. specialize (H []). vm_compute in H. discriminate.
  - split; [reflexivity|]. split; [reflexivity|].
    intros H. vm_compute in H. discriminate.
Qed.

(** ** The command gate *)

Section GateFacts.
Context {W : World}.

Lemma emitted_emitted (σ : State) evs evs' :
  emitted (emitted σ evs) evs' = emitted σ (evs ++ evs')%list.
Proof. unfold emitted. simpl. now rewrite <- List.app_assoc. Qed.

Lemma emit_emitted e (σ : State) : emit e σ = (tt, emitted σ [e]).
Proof. reflexivity. Qed.

Lemma exempt_iff p :
  cmd.commandRequiresAuthentication p = false
  <-> p = "asgardeo login" \/ p = "asgardeo logout".
Proof.
  unfold cmd.commandRequiresAuthentication, cmd.commandsWithNoAuthRequired.
  rewrite !lookup_insert, lookup_empty.
  destruct (decide ("asgardeo login" = p)) as [<-|Hlogin].
  { simpl. split; [now left | reflexivity]. }
  destruct (decide ("asgardeo logout" = p)) as [<-|Hlogout].
  { simpl. split; [now right | reflexivity]. }
  simpl. split; [discriminate | intros [->| ->]; congruence].
Qed.

End GateFacts.

(** C6: [commandRequiresAuthentication] is false for exactly the command
    paths "asgardeo login" and "asgardeo logout" and true for every other
    path, "asgardeo applications list" among them. *)
Theorem commandRequiresAuthentication_exactly_login_logout :
  (forall p : string,
      cmd.commandRequiresAuthentication p = false
      <-> p = "asgardeo login" \/ p = "asgardeo logout")
  /\ (forall p : string,
         p <> "asgardeo login" -> p <> "asgardeo logout" ->
         cmd.commandRequiresAuthentication p = true)
  /\ cmd.commandRequiresAuthentication "asgardeo login" = false
  /\ cmd.commandRequiresAuthentication "asgardeo logout" = false
  /\ cmd.commandRequiresAuthentication "asgardeo applications list" = true.
Proof.
  split; [exact exempt_iff|]. split; [|now vm_compute].
  intros p Hlogin Hlogout.
  destruct (cmd.commandRequiresAuthentication p) eqn:E; [reflexivity|].
  apply exempt_iff in E as [->| ->]; congruence.
Qed.

Lemma commandRequiresAuthentication_witness :
  cmd.commandRequiresAuthentication "asgardeo applications create" = true.
Proof.
  apply (proj1 (proj2 commandRequiresAuthentication_exactly_login_logout));
    intros H; vm_compute in H; discriminate.
Defined.

(** C7: when the command path requires authentication the gate calls the
    session setup before anything else; if the setup fails, the run
    returns the setup's error wrapped with the prefix "authentication
    failed: " and the command body does not run (no [EvRun], and the
    outcome is the same whatever the body is); if it succeeds the body
    runs after it.  For an exempt path the gate returns no error without
    calling the setup, and the body runs. *)
Theorem gate_runs_setup_before_body {W : World}
    (commandPath : string) (ctx : Context) (RunE : M (option error)) (σ : State) :
  (cmd.commandRequiresAuthentication commandPath = true ->
   (forall err : error,
       SetupWithAuthentication ctx = Some err ->
       cmd.PersistentPreRunE commandPath ctx σ
       = (Some (wrapError ("authentication failed: " +:+ fmt.Error err) err),
          emitted σ [EvSetup ctx; EvLog "Authentication setup failed"])
       /\ cmd.execute commandPath ctx RunE σ
          = (Some (wrapError ("authentication failed: " +:+ fmt.Error err) err),
             emitted σ [EvSetup ctx; EvLog "Authentication setup failed"]))
   /\ (SetupWithAuthentication ctx = None ->
       cmd.PersistentPreRunE commandPath ctx σ = (None, emitted σ [EvSetup ctx])
       /\ cmd.execute commandPath ctx RunE σ
          = RunE (emitted σ [EvSetup ctx; EvRun commandPath])))
  /\ (cmd.commandRequiresAuthentication commandPath = false ->
      cmd.PersistentPreRunE commandPath ctx σ = (None, σ)
      /\ cmd.execute commandPath ctx RunE σ = RunE (emitted σ [EvRun commandPath])).
Proof.
  unfold cmd.execute, cmd.PersistentPreRunE, bind, ret, emit, emitted.
  split.
  - intros ->. simpl. split.
    + intros err ->. simpl. rewrite <- List.app_assoc. now split.
    + intros ->. simpl. rewrite <- List.app_assoc. now split.
  - intros ->. simpl. now split.
Qed.

Lemma gate_runs_setup_before_body_witness :
  cmd.execute (W := sample.noSession) "asgardeo applications list" 7%nat
    (emit (EvLog "listing applications") ;; ret None)
    (sample.start (W := sample.noSession) "")
  = (Some (wrapError "authentication failed: no active session"
             (errorString "no active session")),
     emitted (sample.start (W := sample.noSession) "")
       [EvSetup 7%nat; EvLog "Authentication setup failed"]).
Proof.
  exact (proj2 (proj1 (proj1 (gate_runs_setup_before_body (W := sample.noSession)
                 "asgardeo applications list" 7%nat
                 (emit (EvLog "listing applications") ;; ret None)
                 (sample.start (W := sample.noSession) ""))
            eq_refl) (errorString "no active session") eq_refl)).
Defined.

(** ** Headers *)

Section HeaderFacts.

Lemma Values_Set h key value :
  http.Header.Values (http.Header.Set_ h key value) key = [value].
Proof. unfold http.Header.Values, http.Header.Set_. now rewrite lookup_insert_eq. Qed.

Lemma Values_Set_other h key value key' :
  textproto.CanonicalMIMEHeaderKey key' <> textproto.CanonicalMIMEHeaderKey key ->
  http.Header.Values (http.Header.Set_ h key value) key' = http.Header.Values h key'.
Proof.
  intros Hne. unfold http.Header.Values, http.Header.Set_.
  now rewrite lookup_insert_ne by congruence.
Qed.

Lemma Values_Add_empty key value :
  http.Header.Values (http.Header.Add ∅ key value) key = [value].
Proof.
  unfold http.Header.Values, http.Header.Add.
  now rewrite lookup_insert_eq, lookup_empty.
Qed.

Lemma Get_Values h key value rest :
  http.Header.Values h key = value :: rest -> http.Header.Get h key = value.
Proof. unfold http.Header.Get. now intros ->. Qed.

(** What a request made by [http.NewRequestWithContext] looks like. *)
Lemma NewRequestWithContext_ok Parse ctx method uri body request :
  http.NewRequestWithContext Parse ctx method uri body = Ok request ->
  http.Request.Header request = ∅
  /\ http.Request.Body request = body
  /\ http.Request.ctx request = ctx.
Proof.
  unfold http.NewRequestWithContext.
  destruct (negb _); [discriminate|].
  destruct (Parse uri); [|discriminate].
  intros [= <-]. now repeat split.
Qed.

Lemma validMethod_nonEmpty method :
  http.validMethod method = true -> String.eqb method "" = false.
Proof.
  unfold http.validMethod, url.nonEmpty. intros H.
  apply andb_true_iff in H as [H _]. now apply negb_true_iff in H.
Qed.

End HeaderFacts.

(** ** The authenticated transport *)

Section TransportFacts.
Context {W : World}.

Lemma Do_run (c : api.httpClient) (req : http.Request.t) (σ : State) :
  api.Do c req σ
  = (match client_Do (http.Request.setHeader req "Authorization"
                        ("Bearer " +:+ api.token c)) with
     | Ok response => Ok response
     | Err err =>
         match ctx_Err (http.Request.ctx req) with
         | Some ctxErr => Err ctxErr
         | None => Err err
         end
     end,
     emitted σ [EvSend (http.Request.setHeader req "Authorization"
                          ("Bearer " +:+ api.token c))]).
Proof.
  unfold api.Do, bind, ret, emit, emitted. simpl.
  destruct (client_Do _); [reflexivity|].
  now destruct (ctx_Err _).
Qed.

End TransportFacts.

(** C8: the request that [Do] hands to the transport is the given one with
    its Authorization header set to the single value "Bearer " followed by
    the client's token, whatever the header held before; the other headers
    and the other fields of the request are as they were. *)
Theorem Do_sets_bearer_token {W : World} (c : api.httpClient)
    (req : http.Request.t) (σ : State) :
  exists sent : http.Request.t,
    snd (api.Do c req σ) = emitted σ [EvSend sent]
    /\ fst (api.Do c req σ)
       = match client_Do sent with
         | Ok response => Ok response
         | Err err => Err (default err (ctx_Err (http.Request.ctx req)))
         end
    /\ http.Header.Values (http.Request.Header sent) "Authorization"
       = ["Bearer " +:+ api.token c]
    /\ http.Header.Get (http.Request.Header sent) "Authorization"
       = "Bearer " +:+ api.token c
    /\ (forall key : string,
           textproto.CanonicalMIMEHeaderKey key <> "Authorization" ->
           http.Header.Values (http.Request.Header sent) key
           = http.Header.Values (http.Request.Header req) key)
    /\ http.Request.Method sent = http.Request.Method req
    /\ http.Request.URL sent = http.Request.URL req
    /\ http.Request.Body sent = http.Request.Body req
    /\ http.Request.ctx sent = http.Request.ctx req.
Proof.
  exists (http.Request.setHeader req "Authorization" ("Bearer " +:+ api.token c)).
  rewrite Do_run. cbn [fst snd]. split; [reflexivity|]. split.
  { destruct (client_Do _); [reflexivity|]. now destruct (ctx_Err _). }
  cbn [http.Request.setHeader http.Request.Header http.Request.Method
       http.Request.URL http.Request.Body http.Request.ctx].
  split; [apply Values_Set|].
  split; [apply (Get_Values _ _ _ []), Values_Set|].
  split; [|now repeat split].
  intros key Hkey. now apply Values_Set_other.
Qed.

Lemma Do_sets_bearer_token_witness :
  exists sent : http.Request.t,
    snd (api.Do (W := sample.answering 200 "{}") (sample.client "acme")
           sample.staleRequest (sample.start (W := sample.answering 200 "{}") ""))
    = emitted (sample.start (W := sample.answering 200 "{}") "") [EvSend sent]
    /\ http.Header.Values (http.Request.Header sent) "authorization"
       = ["Bearer token-of-acme"]
    /\ http.Header.Values (http.Request.Header sent) "Content-Type"
       = ["application/json"].
Proof.
  destruct (Do_sets_bearer_token (W := sample.answering 200 "{}") (sample.client "acme")
              sample.staleRequest (sample.start (W := sample.answering 200 "{}") ""))
    as [sent [Htrace [_ [Hauth [_ [Hother _]]]]]].
  exists sent. split; [exact Htrace|]. split; [exact Hauth|].
  rewrite (Hother "Content-Type"); [reflexivity|].
  intros H; vm_compute in H; discriminate.
Defined.

(** C3: when the transport fails, [Do] returns the context's own error if
    the request's context is done at that moment (cancelled or past its
    deadline) and the transport's error, unchanged, otherwise. *)
Theorem Do_transport_failure {W : World} (c : api.httpClient)
    (req : http.Request.t) (σ : State) (err : error) :
  client_Do (http.Request.setHeader req "Authorization" ("Bearer " +:+ api.token c))
  = Err err ->
  (forall ctxErr : error,
      ctx_Err (http.Request.ctx req) = Some ctxErr ->
      fst (api.Do c req σ) = Err ctxErr)
  /\ (ctx_Err (http.Request.ctx req) = None -> fst (api.Do c req σ) = Err err).
Proof.
  intros Hsend. rewrite Do_run, Hsend. cbn [fst].
  split; [intros ctxErr ->|intros ->]; reflexivity.
Qed.

Lemma Do_transport_failure_witness :
  fst (api.Do (W := sample.failing (Some sample.Canceled)) (sample.client "acme")
         sample.staleRequest
         (sample.start (W := sample.failing (Some sample.Canceled)) ""))
  = Err sample.Canceled
  /\ fst (api.Do (W := sample.failing None) (sample.client "acme")
            sample.staleRequest (sample.start (W := sample.failing None) ""))
     = Err sample.refused.
Proof.
  split.
  - exact (proj1 (Do_transport_failure (W := sample.failing (Some sample.Canceled))
                    (sample.client "acme") sample.staleRequest
                    (sample.start (W := sample.failing (Some sample.Canceled)) "")
                    sample.refused eq_refl) sample.Canceled eq_refl).
  - exact (proj2 (Do_transport_failure (W := sample.failing None)
                    (sample.client "acme") sample.staleRequest
                    (sample.start (W := sample.failing None) "")
                    sample.refused eq_refl) eq_refl).
Defined.

(** ** The request factory *)

Section FactoryFacts.
Context {W : World}.

Lemma Marshal_state payload (σ : State) : snd (json.Marshal payload σ) = σ.
Proof. now destruct payload as [|[l|]|v]. Qed.

Lemma Encode_run payload (σ : State) :
  json.Encode payload σ
  = (match fst (json.Marshal payload σ) with
     | Ok s => Ok (s +:+ json.newline)
     | Err err => Err err
     end, σ).
Proof.
  unfold json.Encode, bind.
  pose proof (Marshal_state payload σ) as Hσ.
  destruct (json.Marshal payload σ) as [[s|err] σ']; simpl in *; now subst.
Qed.

Lemma NewRequest_run c ctx method uri payload (σ : State) :
  api.NewRequest c ctx method uri payload σ
  = (match requestBody payload σ with
     | Err err => Err err
     | Ok body =>
         match http.NewRequestWithContext url_Parse ctx method uri body with
         | Err err => Err err
         | Ok request =>
             Ok (http.Request.addHeader request "Content-Type" "application/json")
         end
     end, σ).
Proof.
  unfold api.NewRequest, requestBody, bind.
  destruct payload as [|p|v].
  - unfold ret. now destruct (http.NewRequestWithContext _ _ _ _ _).
  - rewrite Encode_run. destruct (fst _); [|reflexivity].
    unfold ret. now destruct (http.NewRequestWithContext _ _ _ _ _).
  - rewrite Encode_run. destruct (fst _); [|reflexivity].
    unfold ret. now destruct (http.NewRequestWithContext _ _ _ _ _).
Qed.

Lemma requestBody_null payload (σ : State) :
  fst (json.Marshal payload σ) = Ok "null" -> requestBody payload σ = Ok "".
Proof.
  intros H. unfold requestBody. rewrite H.
  now destruct payload.
Qed.

End FactoryFacts.

(** C5: for a payload whose JSON serialization is the null token, and a
    method and URI that [http.NewRequestWithContext] accepts, [NewRequest]
    returns a request with an empty body and the header
    Content-Type: application/json; and every request [NewRequest] returns,
    whatever the payload, has that header. *)
Theorem NewRequest_null_payload {W : World} (c : api.httpClient) (ctx : Context)
    (method uri : string) (payload : iface) (σ : State) :
  (forall u : url.URL,
      fst (json.Marshal payload σ) = Ok "null" ->
      method = "" \/ http.validMethod method = true ->
      url_Parse uri = Ok u ->
      exists request : http.Request.t,
        api.NewRequest c ctx method uri payload σ = (Ok request, σ)
        /\ http.Request.Body request = ""
        /\ http.Header.Values (http.Request.Header request) "Content-Type"
           = ["application/json"]
        /\ http.Header.Get (http.Request.Header request) "Content-Type"
           = "application/json")
  /\ (forall (request : http.Request.t) (σ' : State),
         api.NewRequest c ctx method uri payload σ = (Ok request, σ') ->
         http.Header.Values (http.Request.Header request) "Content-Type"
         = ["application/json"]
         /\ http.Header.Get (http.Request.Header request) "Content-Type"
            = "application/json").
Proof.
  split.
  - intros u Hnull Hmethod Hparse.
    rewrite NewRequest_run, (requestBody_null _ _ Hnull).
    unfold http.NewRequestWithContext. rewrite Hparse.
    assert (Hvalid : negb (http.validMethod
                             (if String.eqb method "" then "GET" else method)) = false).
    { destruct Hmethod as [->|Hvalid]; [reflexivity|].
      now rewrite (validMethod_nonEmpty _ Hvalid), Hvalid. }
    rewrite Hvalid. eexists. split; [reflexivity|].
    cbn [http.Request.addHeader http.Request.Header http.Request.Body].
    split; [reflexivity|].
    split; [apply Values_Add_empty|].
    apply (Get_Values _ _ _ []), Values_Add_empty.
  - intros request σ'. rewrite NewRequest_run.
    destruct (requestBody payload σ) as [body|]; [|discriminate].
    destruct (http.NewRequestWithContext _ _ _ _ _) as [made|] eqn:Hmade; [|discriminate].
    intros [= <- _].
    apply NewRequestWithContext_ok in Hmade as [Hheader _].
    cbn [http.Request.addHeader http.Request.Header]. rewrite Hheader.
    split; [apply Values_Add_empty|].
    apply (Get_Values _ _ _ []), Values_Add_empty.
Qed.

Lemma NewRequest_null_payload_witness :
  exists request : http.Request.t,
    api.NewRequest (W := sample.answering 200 "{}") (sample.client "acme") 7%nat
      "DELETE" "https://api.asgardeo.io/t/acme/api/server/v1/applications/42"
      (pointer None) (sample.start (W := sample.answering 200 "{}") "")
    = (Ok request, sample.start (W := sample.answering 200 "{}") "")
    /\ http.Request.Body request = ""
    /\ http.Header.Get (http.Request.Header request) "Content-Type" = "application/json".
Proof.
  destruct (proj1 (NewRequest_null_payload (W := sample.answering 200 "{}")
                     (sample.client "acme") 7%nat
                     "DELETE" "https://api.asgardeo.io/t/acme/api/server/v1/applications/42"
                     (pointer None) (sample.start (W := sample.answering 200 "{}") ""))
              _ eq_refl (or_intror eq_refl) eq_refl)
    as [request [Hmade [Hbody [_ Hget]]]].
  exists request. now repeat split.
Defined.

(** ** The response resolver *)

Section ResolverFacts.
Context {W : World}.

Lemma Unmarshal_run data payload (σ : State) :
  json.Unmarshal data payload σ
  = match json_checkValid data with
    | Some err => (Some err, σ)
    | None =>
        match payload with
        | pointer (Some l) =>
            (snd (json_decode data (heap σ l)),
             {| heap := <[l := fst (json_decode data (heap σ l))]> (heap σ);
                trace := trace σ |})
        | _ => (json_decodeAny data, σ)
        end
    end.
Proof.
  unfold json.Unmarshal. destruct (json_checkValid data); [reflexivity|].
  destruct payload as [|[l|]|v]; try reflexivity.
  unfold bind, load, store, ret. now destruct (json_decode data (heap σ l)).
Qed.

(** The events of [Unmarshal]: none. *)
Lemma Unmarshal_trace data payload (σ : State) :
  trace (snd (json.Unmarshal data payload σ)) = trace σ.
Proof.
  rewrite Unmarshal_run. destruct (json_checkValid data); [reflexivity|].
  now destruct payload as [|[l|]|v].
Qed.

Lemma length_zero_iff (s : string) : (0 <? String.length s)%nat = false <-> s = "".
Proof. destruct s; simpl; split; intros H; try reflexivity; discriminate. Qed.

(** One call of [Request] whose request is made and answered. *)
Lemma Request_run c ctx method uri payload (σ : State) request response :
  api.NewRequest c ctx method uri payload σ = (Ok request, σ) ->
  client_Do (authorized c request) = Ok response ->
  api.Request c ctx method uri payload σ
  = let σ1 := emitted σ [EvSend (authorized c request)] in
    if 400 <=? http.Response.StatusCode response
    then (Some (api.newError response),
          emitted σ1 [EvLog "received an error response from the server"; EvClose])
    else match http.Response.Body response with
         | Err err =>
             (Some (fmt.Errorf_w "failed to read the response body: " err),
              emitted σ1 [EvClose])
         | Ok responseBody =>
             if (0 <? String.length responseBody)%nat
                && negb (String.eqb responseBody "{}")
             then
               (option_map (fmt.Errorf_w "failed to unmarshal response payload: ")
                  (fst (json.Unmarshal responseBody payload σ1)),
                emitted (snd (json.Unmarshal responseBody payload σ1)) [EvClose])
             else (None, emitted σ1 [EvClose])
         end.
Proof.
  intros Hnew Hsend. unfold api.Request, bind at 1. rewrite Hnew.
  unfold bind at 1. rewrite Do_run. fold (authorized c request). rewrite Hsend.
  cbn zeta. unfold defer, http.StatusBadRequest.
  destruct (400 <=? _).
  - unfold bind, emit, ret, emitted. simpl. now rewrite <- List.app_assoc.
  - destruct (http.Response.Body response) as [responseBody|err]; [|reflexivity].
    destruct (_ && _); [|reflexivity].
    unfold bind.
    destruct (json.Unmarshal responseBody payload _) as [[err|] σ2]; reflexivity.
Qed.

End ResolverFacts.

(** C2: on a response with a status below 400 whose body reads as empty
    or as the two bytes "{}", [Request] returns no error and the heap (and
    so whatever the payload points to) is as it was.  On any other body it
    decodes the body into the payload with [json.Unmarshal]: a body that
    is not valid JSON is refused with nothing written; otherwise the cell
    the payload points to receives what decoding the body into it yields,
    and a payload that is not a non-nil pointer leaves the heap as it
    was.  Whenever the decoding fails, [Request] returns its error wrapped
    as "failed to unmarshal response payload: ...". *)
Theorem Request_decodes_unless_empty {W : World} (c : api.httpClient) (ctx : Context)
    (method uri : string) (payload : iface) (σ : State)
    (request : http.Request.t) (response : http.Response.t) (responseBody : string) :
  api.NewRequest c ctx method uri payload σ = (Ok request, σ) ->
  client_Do (authorized c request) = Ok response ->
  http.Response.StatusCode response < 400 ->
  http.Response.Body response = Ok responseBody ->
  let σ1 := emitted σ [EvSend (authorized c request)] in
  (responseBody = "" \/ responseBody = "{}" ->
   api.Request c ctx method uri payload σ = (None, emitted σ1 [EvClose])
   /\ heap (snd (api.Request c ctx method uri payload σ)) = heap σ)
  /\ (responseBody <> "" -> responseBody <> "{}" ->
      snd (api.Request c ctx method uri payload σ)
      = emitted (snd (json.Unmarshal responseBody payload σ1)) [EvClose]
      /\ (fst (json.Unmarshal responseBody payload σ1) = None ->
          fst (api.Request c ctx method uri payload σ) = None)
      /\ (forall err : error,
             fst (json.Unmarshal responseBody payload σ1) = Some err ->
             fst (api.Request c ctx method uri payload σ)
             = Some (wrapError ("failed to unmarshal response payload: "
                                +:+ fmt.Error err) err))
      /\ (forall err : error,
             json_checkValid responseBody = Some err ->
             fst (api.Request c ctx method uri payload σ)
             = Some (wrapError ("failed to unmarshal response payload: "
                                +:+ fmt.Error err) err)
             /\ heap (snd (api.Request c ctx method uri payload σ)) = heap σ)
      /\ (json_checkValid responseBody = None ->
          (forall l : loc,
              payload = pointer (Some l) ->
              heap (snd (api.Request c ctx method uri payload σ)) l
              = fst (json_decode responseBody (heap σ l))
              /\ fst (api.Request c ctx method uri payload σ)
                 = option_map (fmt.Errorf_w "failed to unmarshal response payload: ")
                     (snd (json_decode responseBody (heap σ l))))
          /\ ((forall l : loc, payload <> pointer (Some l)) ->
              heap (snd (api.Request c ctx method uri payload σ)) = heap σ
              /\ fst (api.Request c ctx method uri payload σ)
                 = option_map (fmt.Errorf_w "failed to unmarshal response payload: ")
                     (json_decodeAny responseBody)))).
Proof.
  intros Hnew Hsend Hstatus Hbody σ1.
  rewrite (Request_run _ _ _ _ _ _ _ _ Hnew Hsend). cbn zeta. fold σ1.
  replace (400 <=? _) with false by (symmetry; apply Z.leb_gt; exact Hstatus).
  rewrite Hbody. split.
  - intros [->| ->]; simpl; now split.
  - intros Hne Hne'.
    replace ((0 <? String.length responseBody)%nat) with true
      by (destruct responseBody; [congruence|reflexivity]).
    replace (String.eqb responseBody "{}") with false
      by (symmetry; now apply String.eqb_neq).
    simpl. split; [reflexivity|].
    split; [now intros ->|]. split; [now intros err ->|].
    rewrite Unmarshal_run. split.
    + now intros err ->.
    + intros ->. split.
      * intros l ->. cbn [fst snd emitted heap]. split; [|reflexivity].
        apply fn_lookup_insert.
      * intros Hnot. destruct payload as [|[l|]|v]; try now split.
        now destruct (Hnot l).
Qed.

Lemma Request_decodes_unless_empty_witness :
  api.Request (W := sample.answering 200 "{}") (sample.client "acme") 7%nat "POST"
    "https://api.asgardeo.io/t/acme/api/server/v1/applications" (pointer (Some 3%nat))
    (sample.start (W := sample.answering 200 "{}") "{name}")
  = (None,
     emitted (sample.start (W := sample.answering 200 "{}") "{name}")
       [EvSend (authorized (sample.client "acme") (sample.posted "{name}")); EvClose])
  /\ (heap (snd (api.Request (W := sample.answering 201 "{id}") (sample.client "acme")
                   7%nat "POST" "https://api.asgardeo.io/t/acme/api/server/v1/applications"
                   (pointer (Some 3%nat))
                   (sample.start (W := sample.answering 201 "{id}") "{name}"))) 3%nat
      = "{id}"
      /\ fst (api.Request (W := sample.answering 201 "{id}") (sample.client "acme")
                7%nat "POST" "https://api.asgardeo.io/t/acme/api/server/v1/applications"
                (pointer (Some 3%nat))
                (sample.start (W := sample.answering 201 "{id}") "{name}"))
         = None)
  /\ fst (api.Request (W := sample.answering 200 "[]") (sample.client "acme")
            7%nat "POST" "https://api.asgardeo.io/t/acme/api/server/v1/applications"
            (pointer (Some 3%nat))
            (sample.start (W := sample.answering 200 "[]") "{name}"))
     = Some (wrapError
               "failed to unmarshal response payload: json: cannot unmarshal into Go value"
               (errorString "json: cannot unmarshal into Go value")).
Proof.
  split; [|split].
  - refine (proj1 (proj1 (Request_decodes_unless_empty (W := sample.answering 200 "{}")
              (sample.client "acme") 7%nat "POST"
              "https://api.asgardeo.io/t/acme/api/server/v1/applications"
              (pointer (Some 3%nat))
              (sample.start (W := sample.answering 200 "{}") "{name}")
              (sample.posted "{name}")
              {| http.Response.StatusCode := 200; http.Response.Body := Ok "{}" |} "{}"
              eq_refl eq_refl _ eq_refl) (or_intror eq_refl))).
    reflexivity.
  - refine (proj1 (proj2 (proj2 (proj2 (proj2 (proj2
              (Request_decodes_unless_empty (W := sample.answering 201 "{id}")
                 (sample.client "acme") 7%nat "POST"
                 "https://api.asgardeo.io/t/acme/api/server/v1/applications"
                 (pointer (Some 3%nat))
                 (sample.start (W := sample.answering 201 "{id}") "{name}")
                 (sample.posted "{name}")
                 {| http.Response.StatusCode := 201; http.Response.Body := Ok "{id}" |}
                 "{id}" eq_refl eq_refl _ eq_refl) _ _)))) eq_refl) 3%nat eq_refl);
      [reflexivity | discriminate | discriminate].
  - refine (proj2 (proj1 (proj2 (proj2 (proj2 (proj2 (proj2
              (Request_decodes_unless_empty (W := sample.answering 200 "[]")
                 (sample.client "acme") 7%nat "POST"
                 "https://api.asgardeo.io/t/acme/api/server/v1/applications"
                 (pointer (Some 3%nat))
                 (sample.start (W := sample.answering 200 "[]") "{name}")
                 (sample.posted "{name}")
                 {| http.Response.StatusCode := 200; http.Response.Body := Ok "[]" |}
                 "[]" eq_refl eq_refl _ eq_refl) _ _)))) eq_refl) 3%nat eq_refl));
      [reflexivity | discriminate | discriminate].
Defined.

(** C4: [Request] treats a response as an error exactly when its status
    code is 400 or more: it then returns the structured error of
    [newError], which carries the status code, and decodes nothing.  Any
    status below 400 (2xx, or a 3xx the transport did not follow) goes on
    to reading and decoding the body, and the result is never an upstream
    error. *)
Theorem Request_classifies_by_status {W : World} (c : api.httpClient) (ctx : Context)
    (method uri : string) (payload : iface) (σ : State)
    (request : http.Request.t) (response : http.Response.t) :
  api.NewRequest c ctx method uri payload σ = (Ok request, σ) ->
  client_Do (authorized c request) = Ok response ->
  let σ1 := emitted σ [EvSend (authorized c request)] in
  (400 <= http.Response.StatusCode response ->
   api.Request c ctx method uri payload σ
   = (Some (api.newError response),
      emitted σ1 [EvLog "received an error response from the server"; EvClose])
   /\ (exists msg : string,
          api.newError response = UpstreamError (http.Response.StatusCode response) msg)
   /\ heap (snd (api.Request c ctx method uri payload σ)) = heap σ)
  /\ (http.Response.StatusCode response < 400 ->
      (forall (code : Z) (msg : string),
          fst (api.Request c ctx method uri payload σ) <> Some (UpstreamError code msg))
      /\ match http.Response.Body response with
         | Err err =>
             api.Request c ctx method uri payload σ
             = (Some (fmt.Errorf_w "failed to read the response body: " err),
                emitted σ1 [EvClose])
         | Ok responseBody =>
             api.Request c ctx method uri payload σ
             = if (0 <? String.length responseBody)%nat
                  && negb (String.eqb responseBody "{}")
               then
                 (option_map (fmt.Errorf_w "failed to unmarshal response payload: ")
                    (fst (json.Unmarshal responseBody payload σ1)),
                  emitted (snd (json.Unmarshal responseBody payload σ1)) [EvClose])
               else (None, emitted σ1 [EvClose])
         end).
Proof.
  intros Hnew Hsend σ1.
  rewrite (Request_run _ _ _ _ _ _ _ _ Hnew Hsend). cbn zeta. fold σ1.
  split.
  - intros Hstatus.
    replace (400 <=? _) with true by (symmetry; apply Z.leb_le; exact Hstatus).
    split; [reflexivity|]. split; [|reflexivity].
    unfold api.newError. eexists. reflexivity.
  - intros Hstatus.
    replace (400 <=? _) with false by (symmetry; apply Z.leb_gt; exact Hstatus).
    split.
    + intros code msg.
      destruct (http.Response.Body response) as [responseBody|err]; [|discriminate].
      destruct (_ && _); [|discriminate].
      destruct (fst (json.Unmarshal responseBody payload σ1)); discriminate.
    + now destruct (http.Response.Body response).
Qed.

Lemma Request_classifies_by_status_witness :
  api.Request (W := sample.answering 404 "application not found")
    (sample.client "acme") 7%nat "POST"
    "https://api.asgardeo.io/t/acme/api/server/v1/applications" (pointer (Some 3%nat))
    (sample.start (W := sample.answering 404 "application not found") "{name}")
  = (Some (UpstreamError 404 "application not found"),
     emitted (sample.start (W := sample.answering 404 "application not found") "{name}")
       [EvSend (authorized (sample.client "acme") (sample.posted "{name}"));
        EvLog "received an error response from the server"; EvClose]).
Proof.
  refine (proj1 (proj1 (Request_classifies_by_status
            (W := sample.answering 404 "application not found")
            (sample.client "acme") 7%nat "POST"
            "https://api.asgardeo.io/t/acme/api/server/v1/applications"
            (pointer (Some 3%nat))
            (sample.start (W := sample.answering 404 "application not found") "{name}")
            (sample.posted "{name}")
            {| http.Response.StatusCode := 404;
               http.Response.Body := Ok "application not found" |}
            eq_refl eq_refl) _)).
  discriminate.
Defined.




(** * Further properties of the request core *)

(** ** Path segments *)

Section SegmentFacts.

Lemma unescape_escapeByte c rest :
  unescapeSegment (url.escapeByte c url.encodePathSegment +:+ rest)
  = String c (unescapeSegment rest).
Proof.
  destruct c as [b0 b1 b2 b3 b4 b5 b6 b7].
  destruct b0, b1, b2, b3, b4, b5, b6, b7; reflexivity.
Qed.

(** Decoding an escaped segment gives the segment back. *)
Lemma unescape_PathEscape s : unescapeSegment (url.PathEscape s) = s.
Proof.
  unfold url.PathEscape. rewrite escape_escapeBytes.
  induction s as [|c s IH]; [reflexivity|].
  cbn [url.escapeBytes]. now rewrite unescape_escapeByte, IH.
Qed.

Lemma PathEscape_inj a b : url.PathEscape a = url.PathEscape b -> a = b.
Proof.
  intros H. rewrite <- (unescape_PathEscape a), <- (unescape_PathEscape b).
  now rewrite H.
Qed.

Lemma map_PathEscape_inj p q : map url.PathEscape p = map url.PathEscape q -> p = q.
Proof.
  revert q. induction p as [|a p IH]; intros [|b q] H; try discriminate; [reflexivity|].
  simpl in H. injection H as Hab Hpq. f_equal; [now apply PathEscape_inj | now apply IH].
Qed.

Lemma URI_base_rest c path :
  api.URI c path = baseOf c +:+ strings.Join (map url.PathEscape path) "/".
Proof. apply URI_joins_escaped. Qed.

Lemma length_escapeBytes s mode :
  mode <> url.encodeQueryComponent ->
  String.length (url.escapeBytes s mode)
  = (String.length s + 2 * url.escapeCount s mode)%nat.
Proof.
  intros Hmode. induction s as [|c s IH]; [reflexivity|].
  cbn [url.escapeBytes url.escapeCount String.length].
  rewrite length_app, IH.
  assert (Hc : String.length (url.escapeByte c mode)
               = (1 + 2 * (if url.shouldEscape c mode then 1 else 0))%nat).
  { unfold url.escapeByte.
    replace (match mode with url.encodeQueryComponent => true | _ => false end)
      with false by now destruct mode.
    rewrite andb_false_r. now destruct (url.shouldEscape c mode). }
  rewrite Hc. lia.
Qed.

Lemma escapeByte_segmentBytes c :
  textproto.allBytes segmentByte (url.escapeByte c url.encodePathSegment) = true.
Proof.
  destruct c as [b0 b1 b2 b3 b4 b5 b6 b7].
  destruct b0, b1, b2, b3, b4, b5, b6, b7; vm_compute; reflexivity.
Qed.

Lemma allBytes_app p s t :
  textproto.allBytes p (s +:+ t) = textproto.allBytes p s && textproto.allBytes p t.
Proof.
  induction s as [|c s IH]; [reflexivity|].
  rewrite app_cons. simpl. now rewrite IH, andb_assoc.
Qed.

Lemma PathEscape_segmentBytes s :
  textproto.allBytes segmentByte (url.PathEscape s) = true.
Proof.
  unfold url.PathEscape. rewrite escape_escapeBytes.
  induction s as [|c s IH]; [reflexivity|].
  cbn [url.escapeBytes]. now rewrite allBytes_app, escapeByte_segmentBytes, IH.
Qed.

Lemma Join_snoc pieces piece sep :
  pieces <> [] ->
  strings.Join (pieces ++ [piece])%list sep = strings.Join pieces sep +:+ sep +:+ piece.
Proof.
  induction pieces as [|p rest IH]; [congruence|]. intros _.
  destruct rest as [|q rest]; [reflexivity|].
  change (strings.Join ((p :: q :: rest) ++ [piece])%list sep)
    with (p +:+ sep +:+ strings.Join ((q :: rest) ++ [piece])%list sep).
  rewrite IH by congruence.
  change (strings.Join (p :: q :: rest) sep)
    with (p +:+ sep +:+ strings.Join (q :: rest) sep).
  now rewrite !app_assoc.
Qed.

End SegmentFacts.

(** X1: [url.PathEscape], as [URI] uses it, loses nothing: two segments
    with the same escaped form are the same segment, and the escaped form
    is longer than the segment by two bytes for each byte that needs
    escaping, so it is the segment itself exactly when no byte does. *)
Theorem PathEscape_faithful (a b : string) :
  (url.PathEscape a = url.PathEscape b -> a = b)
  /\ String.length (url.PathEscape a)
     = (String.length a + 2 * url.escapeCount a url.encodePathSegment)%nat
  /\ (url.PathEscape a = a <-> url.escapeCount a url.encodePathSegment = O).
Proof.
  split; [apply PathEscape_inj|].
  assert (Hlen : String.length (url.PathEscape a)
                 = (String.length a + 2 * url.escapeCount a url.encodePathSegment)%nat).
  { unfold url.PathEscape. rewrite escape_escapeBytes.
    now apply length_escapeBytes. }
  split; [exact Hlen|]. split.
  - intros Hsame. rewrite Hsame in Hlen. lia.
  - intros Hnone. unfold url.PathEscape, url.escape. now rewrite Hnone.
Qed.

Lemma PathEscape_faithful_witness :
  url.PathEscape "a/b" <> url.PathEscape "a%2Fb"
  /\ String.length (url.PathEscape "a/b") = 5%nat.
Proof.
  split.
  - intros Hsame. apply (proj1 (PathEscape_faithful "a/b" "a%2Fb")) in Hsame.
    discriminate.
  - exact (proj1 (proj2 (PathEscape_faithful "a/b" "a/b"))).
Defined.

(** X2: on one client, two non-empty lists of segments with the same URI
    are the same list: no two resources share a URL. *)
Theorem URI_injective (c : api.httpClient) (p q : list string) :
  p <> [] -> q <> [] -> api.URI c p = api.URI c q -> p = q.
Proof.
  intros Hp Hq H. rewrite !URI_base_rest in H.
  apply String.app_inj in H.
  apply map_PathEscape_inj.
  rewrite <- (SplitByte_Join (map url.PathEscape p) "/"),
          <- (SplitByte_Join (map url.PathEscape q) "/");
    try apply escaped_pieces_no_slash; try (now destruct p); try (now destruct q).
  now rewrite H.
Qed.

Lemma URI_injective_witness :
  ["applications"; "a/b"] = ["applications"; "a/b"]
  /\ api.URI (sample.client "acme") ["a/b"] <> api.URI (sample.client "acme") ["a"; "b"].
Proof.
  split.
  - apply (URI_injective (sample.client "acme")); [discriminate | discriminate | reflexivity].
  - intros Hsame. apply URI_injective in Hsame; discriminate.
Defined.

(** X3: what [URI] appends to the base URL is made of segment bytes and
    the slashes between segments only; in particular a segment cannot
    bring in a question mark, a hash, a space or a byte above 127, and
    the number of slashes is one less than the number of segments. *)
Theorem URI_appends_safe_bytes (c : api.httpClient) (path : list string) :
  exists rest : string,
    api.URI c path = baseOf c +:+ rest
    /\ textproto.allBytes (fun b => segmentByte b || Ascii.eqb b "/") rest = true
    /\ strings.ContainsByte rest "?" = false
    /\ strings.ContainsByte rest "#" = false
    /\ strings.ContainsByte rest " " = false
    /\ length (strings.SplitByte rest "/") = Nat.max 1 (length path).
Proof.
  exists (strings.Join (map url.PathEscape path) "/").
  split; [apply URI_base_rest|].
  assert (Hsafe : textproto.allBytes (fun b => segmentByte b || Ascii.eqb b "/")
                    (strings.Join (map url.PathEscape path) "/") = true).
  { induction path as [|s path IH]; [reflexivity|].
    assert (Hs : textproto.allBytes (fun b => segmentByte b || Ascii.eqb b "/")
                   (url.PathEscape s) = true).
    { pose proof (PathEscape_segmentBytes s) as H.
      induction (url.PathEscape s) as [|d e IHe]; [reflexivity|].
      simpl in *. apply andb_true_iff in H as [Hd He].
      now rewrite Hd, IHe. }
    destruct path as [|t path]; [exact Hs|].
    change (strings.Join (map url.PathEscape (s :: t :: path)) "/")
      with (url.PathEscape s +:+ "/" +:+ strings.Join (map url.PathEscape (t :: path)) "/").
    rewrite !allBytes_app, Hs, IH. reflexivity. }
  split; [exact Hsafe|].
  assert (Hnot : forall x : ascii,
             segmentByte x || Ascii.eqb x "/" = false ->
             strings.ContainsByte (strings.Join (map url.PathEscape path) "/") x = false).
  { intros x Hx. induction (strings.Join (map url.PathEscape path) "/") as [|d e IHe];
      [reflexivity|].
    simpl in *. apply andb_true_iff in Hsafe as [Hd He].
    rewrite (IHe He), orb_false_r.
    destruct (Ascii.eqb d x) eqn:E; [|reflexivity].
    apply Ascii.eqb_eq in E. subst d. congruence. }
  split; [now apply Hnot|]. split; [now apply Hnot|]. split; [now apply Hnot|].
  destruct path as [|s path]; [reflexivity|].
  rewrite SplitByte_Join; [|discriminate|apply escaped_pieces_no_slash].
  rewrite length_map. simpl. lia.
Qed.

(** X4: adding one segment to a non-empty list extends the URI by a slash
    and the escaped segment, and the URI of no segment is the base URL. *)
Theorem URI_extends (c : api.httpClient) (path : list string) (segment : string) :
  api.URI c [] = baseOf c
  /\ api.URI c [segment] = baseOf c +:+ url.PathEscape segment
  /\ (path <> [] ->
      api.URI c (path ++ [segment])%list
      = api.URI c path +:+ "/" +:+ url.PathEscape segment).
Proof.
  rewrite !URI_base_rest. split; [now rewrite app_nil_r|]. split; [reflexivity|].
  intros Hpath. rewrite map_app. cbn [map].
  rewrite Join_snoc by (now destruct path). now rewrite !app_assoc.
Qed.

Lemma URI_extends_witness :
  api.URI (sample.client "acme") (["applications"] ++ ["a/b"])%list
  = api.URI (sample.client "acme") ["applications"] +:+ "/" +:+ url.PathEscape "a/b".
Proof.
  apply (proj2 (proj2 (URI_extends (sample.client "acme") ["applications"] "a/b"))).
  discriminate.
Defined.

(** ** One call of [Request], whatever happens *)

Section RequestFacts.
Context {W : World}.

Lemma NewRequest_made c ctx method uri payload (σ : State) request :
  fst (api.NewRequest c ctx method uri payload σ) = Ok request ->
  exists body made,
    requestBody payload σ = Ok body
    /\ http.NewRequestWithContext url_Parse ctx method uri body = Ok made
    /\ request = http.Request.addHeader made "Content-Type" "application/json".
Proof.
  rewrite NewRequest_run. cbn [fst].
  destruct (requestBody payload σ) as [body|]; [|discriminate].
  destruct (http.NewRequestWithContext _ _ _ _ _) as [made|] eqn:Hmade; [|discriminate].
  intros [= <-]. now exists body, made.
Qed.

Lemma NewRequest_fields c ctx method uri payload (σ : State) request :
  fst (api.NewRequest c ctx method uri payload σ) = Ok request ->
  requestBody payload σ = Ok (http.Request.Body request)
  /\ http.Request.ctx request = ctx
  /\ http.Request.Header request = http.Header.Add ∅ "Content-Type" "application/json".
Proof.
  intros H. apply NewRequest_made in H as [body [made [Hbody [Hmade ->]]]].
  apply NewRequestWithContext_ok in Hmade as [Hh [Hb Hc]].
  cbn [http.Request.addHeader http.Request.Body http.Request.ctx http.Request.Header].
  now rewrite Hh, Hb, Hc.
Qed.

Lemma NewRequest_pair c ctx method uri payload (σ : State) :
  api.NewRequest c ctx method uri payload σ
  = (fst (api.NewRequest c ctx method uri payload σ), σ).
Proof. now rewrite NewRequest_run. Qed.

(** Every way a call of [Request] can go. *)
Lemma Request_outcome c ctx method uri payload (σ : State) :
  api.Request c ctx method uri payload σ
  = match fst (api.NewRequest c ctx method uri payload σ) with
    | Err err => (Some (fmt.Errorf_w "failed to create a new request: " err), σ)
    | Ok request =>
        let σ1 := emitted σ [EvSend (authorized c request)] in
        match client_Do (authorized c request) with
        | Err err =>
            (Some (fmt.Errorf_w "failed to send the request: "
                     (default err (ctx_Err (http.Request.ctx request)))),
             emitted σ1 [EvLog "failed to send the request with http client"])
        | Ok response =>
            if 400 <=? http.Response.StatusCode response
            then (Some (api.newError response),
                  emitted σ1 [EvLog "received an error response from the server"; EvClose])
            else match http.Response.Body response with
                 | Err err =>
                     (Some (fmt.Errorf_w "failed to read the response body: " err),
                      emitted σ1 [EvClose])
                 | Ok responseBody =>
                     if (0 <? String.length responseBody)%nat
                        && negb (String.eqb responseBody "{}")
                     then
                       (option_map (fmt.Errorf_w "failed to unmarshal response payload: ")
                          (fst (json.Unmarshal responseBody payload σ1)),
                        emitted (snd (json.Unmarshal responseBody payload σ1)) [EvClose])
                     else (None, emitted σ1 [EvClose])
                 end
        end
    end.
Proof.
  pose proof (NewRequest_pair c ctx method uri payload σ) as Hnew.
  destruct (fst (api.NewRequest c ctx method uri payload σ)) as [request|err].
  - destruct (client_Do (authorized c request)) as [response|err] eqn:Hsend.
    + now apply Request_run.
    + unfold api.Request, bind at 1. rewrite Hnew.
      unfold bind at 1. rewrite Do_run. fold (authorized c request). rewrite Hsend.
      cbn zeta.
      destruct (ctx_Err (http.Request.ctx request));
        unfold bind, emit, ret, emitted; simpl; now rewrite <- List.app_assoc.
  - unfold api.Request, bind. now rewrite Hnew.
Qed.

Lemma Is_refl err : errors.Is err err = true.
Proof. destruct err; simpl; now rewrite bool_decide_eq_true_2. Qed.

Lemma Is_wrapped msg err target :
  errors.Is err target = true -> errors.Is (wrapError msg err) target = true.
Proof. intros H. simpl. rewrite H. apply orb_true_r. Qed.

Lemma app_inj_r s s' t : s +:+ t = s' +:+ t -> s = s'.
Proof.
  revert s'. induction s as [|c s IH]; intros [|c' s'] H.
  - reflexivity.
  - apply (f_equal String.length) in H.
    rewrite app_nil_l, app_cons in H. cbn [String.length] in H.
    rewrite length_app in H. lia.
  - apply (f_equal String.length) in H.
    rewrite app_nil_l, app_cons in H. cbn [String.length] in H.
    rewrite length_app in H. lia.
  - rewrite !app_cons in H. injection H as -> H. f_equal. now apply IH.
Qed.

(** The events of a call that got a response: the send, at most one log
    entry, the close. *)
Lemma Request_answered_trace c ctx method uri payload (σ : State) request response :
  fst (api.NewRequest c ctx method uri payload σ) = Ok request ->
  client_Do (authorized c request) = Ok response ->
  exists evs : list event,
    trace (snd (api.Request c ctx method uri payload σ))
    = (trace σ ++ EvSend (authorized c request) :: evs ++ [EvClose])%list
    /\ (evs = [] \/ evs = [EvLog "received an error response from the server"]).
Proof.
  intros Hnew Hsend. rewrite Request_outcome, Hnew. cbn zeta. rewrite Hsend.
  destruct (400 <=? _).
  - exists [EvLog "received an error response from the server"].
    cbn [snd emitted trace]. rewrite <- List.app_assoc. now split; auto.
  - exists [].
    assert (Hshape : forall σ2 : State,
               trace σ2 = (trace σ ++ [EvSend (authorized c request)])%list ->
               trace (emitted σ2 [EvClose])
               = (trace σ ++ EvSend (authorized c request) :: [] ++ [EvClose])%list).
    { intros σ2 H2. cbn [emitted trace]. rewrite H2, <- List.app_assoc. reflexivity. }
    split; [|now left].
    destruct (http.Response.Body response) as [responseBody|err];
      [|now apply Hshape].
    destruct (_ && _); [|now apply Hshape].
    cbn [snd]. apply Hshape. now rewrite Unmarshal_trace.
Qed.

Lemma log_only evs :
  evs = [] \/ evs = [EvLog "received an error response from the server"] ->
  List.filter isClose evs = [] /\ List.filter isSend evs = [].
Proof. now intros [->| ->]. Qed.

(** What is known of a client that was built. *)
Lemma NewHTTPClientAPI_built cfg tenantDomain (σ σ' : State) c :
  api.NewHTTPClientAPI cfg tenantDomain σ = (Ok c, σ') ->
  σ' = σ
  /\ exists tenant : Tenant,
      GetTenant cfg tenantDomain = Ok tenant
      /\ url_Parse "https://api.asgardeo.io/" = Ok (api.baseUrl c)
      /\ api.basepath c = "t/" +:+ Tenant_Name tenant +:+ "/api/server/v1"
      /\ api.token c = GetAccessToken tenant.
Proof.
  unfold api.NewHTTPClientAPI.
  destruct (GetTenant cfg tenantDomain) as [tenant|]; [|discriminate].
  destruct (url_Parse "https://api.asgardeo.io/") as [u|]; [|discriminate].
  unfold ret. intros [= <- <-]. split; [reflexivity|]. now exists tenant.
Qed.

End RequestFacts.

(** X5: when the request cannot be built, [Request] returns that error
    wrapped as "failed to create a new request: ..." and does nothing
    else: nothing is sent, logged or decoded.  The error of [NewRequest]
    is either the encoder's, wrapped as "encoding request payload
    failed: ...", or the one [http.NewRequestWithContext] gave, as it is. *)
Theorem Request_creation_failure {W : World} (c : api.httpClient) (ctx : Context)
    (method uri : string) (payload : iface) (σ : State) (err : error) :
  fst (api.NewRequest c ctx method uri payload σ) = Err err ->
  api.Request c ctx method uri payload σ
  = (Some (wrapError ("failed to create a new request: " +:+ fmt.Error err) err), σ)
  /\ ((exists cause : error,
          payload <> nilInterface
          /\ fst (json.Marshal payload σ) = Err cause
          /\ err = wrapError ("encoding request payload failed: " +:+ fmt.Error cause) cause)
      \/ (exists body : string,
             requestBody payload σ = Ok body
             /\ http.NewRequestWithContext url_Parse ctx method uri body = Err err)).
Proof.
  intros Hnew. split.
  - rewrite Request_outcome, Hnew. reflexivity.
  - rewrite NewRequest_run in Hnew. cbn [fst] in Hnew.
    destruct (requestBody payload σ) as [body|e] eqn:Hbody.
    + right. exists body. split; [reflexivity|].
      destruct (http.NewRequestWithContext _ _ _ _ _); [discriminate|congruence].
    + left. injection Hnew as <-. unfold requestBody in Hbody.
      destruct payload as [|p|v]; [discriminate| |];
        (destruct (fst (json.Marshal _ σ)) as [s|cause] eqn:Hm; [discriminate|];
         injection Hbody as <-; exists cause; now repeat split).
Qed.

Lemma Request_creation_failure_witness :
  api.Request (W := sample.answering 200 "{}") (sample.client "acme") 7%nat
    "GE T" "https://api.asgardeo.io/t/acme/api/server/v1/applications" nilInterface
    (sample.start (W := sample.answering 200 "{}") "")
  = (Some (wrapError
             ("failed to create a new request: net/http: invalid method "
              +:+ http.quote "GE T")
             (errorString ("net/http: invalid method " +:+ http.quote "GE T"))),
     sample.start (W := sample.answering 200 "{}") "").
Proof.
  exact (proj1 (Request_creation_failure (W := sample.answering 200 "{}")
                  (sample.client "acme") 7%nat "GE T"
                  "https://api.asgardeo.io/t/acme/api/server/v1/applications"
                  nilInterface (sample.start (W := sample.answering 200 "{}") "")
                  (errorString ("net/http: invalid method " +:+ http.quote "GE T"))
                  eq_refl)).
Defined.

(** X6: when the transport fails, [Request] returns the error of [Do]
    (the context's error if the context given to [Request] is done, else
    the transport's) wrapped as "failed to send the request: ...", so that
    [errors.Is] still finds the cause, in particular a cancellation; it
    logs once, closes no body and leaves the heap as it was. *)
Theorem Request_transport_failure {W : World} (c : api.httpClient) (ctx : Context)
    (method uri : string) (payload : iface) (σ : State)
    (request : http.Request.t) (err : error) :
  fst (api.NewRequest c ctx method uri payload σ) = Ok request ->
  client_Do (authorized c request) = Err err ->
  let cause := default err (ctx_Err ctx) in
  api.Request c ctx method uri payload σ
  = (Some (wrapError ("failed to send the request: " +:+ fmt.Error cause) cause),
     emitted σ [EvSend (authorized c request);
                EvLog "failed to send the request with http client"])
  /\ (forall e : error,
         fst (api.Request c ctx method uri payload σ) = Some e ->
         errors.Is e cause = true
         /\ (forall ctxErr : error, ctx_Err ctx = Some ctxErr -> errors.Is e ctxErr = true)
         /\ (ctx_Err ctx = None -> errors.Is e err = true))
  /\ heap (snd (api.Request c ctx method uri payload σ)) = heap σ.
Proof.
  intros Hnew Hsend cause.
  assert (Hrun : api.Request c ctx method uri payload σ
                 = (Some (wrapError ("failed to send the request: " +:+ fmt.Error cause)
                            cause),
                    emitted σ [EvSend (authorized c request);
                               EvLog "failed to send the request with http client"])).
  { rewrite Request_outcome, Hnew. cbn zeta. rewrite Hsend.
    destruct (NewRequest_fields _ _ _ _ _ _ _ Hnew) as [_ [-> _]].
    now rewrite emitted_emitted. }
  rewrite Hrun. split; [reflexivity|]. split; [|reflexivity].
  cbn [fst]. intros e [= <-].
  assert (Hcause : errors.Is
                     (wrapError ("failed to send the request: " +:+ fmt.Error cause) cause)
                     cause = true) by apply Is_wrapped, Is_refl.
  split; [exact Hcause|]. subst cause.
  split; [intros ctxErr Hctx | intros Hctx]; rewrite Hctx in *; exact Hcause.
Qed.

Lemma Request_transport_failure_witness :
  api.Request (W := sample.failing (Some sample.Canceled)) (sample.client "acme") 7%nat
    "POST" "https://api.asgardeo.io/t/acme/api/server/v1/applications"
    (pointer (Some 3%nat))
    (sample.start (W := sample.failing (Some sample.Canceled)) "{name}")
  = (Some (wrapError "failed to send the request: context canceled" sample.Canceled),
     emitted (sample.start (W := sample.failing (Some sample.Canceled)) "{name}")
       [EvSend (authorized (sample.client "acme") (sample.posted "{name}"));
        EvLog "failed to send the request with http client"]).
Proof.
  exact (proj1 (Request_transport_failure (W := sample.failing (Some sample.Canceled))
                  (sample.client "acme") 7%nat "POST"
                  "https://api.asgardeo.io/t/acme/api/server/v1/applications"
                  (pointer (Some 3%nat))
                  (sample.start (W := sample.failing (Some sample.Canceled)) "{name}")
                  (sample.posted "{name}") sample.refused eq_refl eq_refl)).
Defined.

(** X7: once a response has come back, [Request] closes its body exactly
    once, as the last thing it does, on every path: error status, read
    failure, decode failure or success.  Between the send and the close
    there is at most a log entry. *)
Theorem Request_closes_body_once {W : World} (c : api.httpClient) (ctx : Context)
    (method uri : string) (payload : iface) (σ : State)
    (request : http.Request.t) (response : http.Response.t) :
  fst (api.NewRequest c ctx method uri payload σ) = Ok request ->
  client_Do (authorized c request) = Ok response ->
  exists evs : list event,
    trace (snd (api.Request c ctx method uri payload σ))
    = (trace σ ++ EvSend (authorized c request) :: evs ++ [EvClose])%list
    /\ List.filter isClose evs = []
    /\ List.filter isSend evs = []
    /\ (evs = [] \/ evs = [EvLog "received an error response from the server"]).
Proof.
  intros Hnew Hsend.
  destruct (Request_answered_trace c ctx method uri payload σ request response
              Hnew Hsend) as [evs [Htrace Hevs]].
  exists evs. split; [exact Htrace|].
  destruct (log_only evs Hevs) as [Hclose Hsends]. now repeat split.
Qed.

Lemma Request_closes_body_once_witness :
  exists evs : list event,
    trace (snd (api.Request (W := sample.answering 404 "application not found")
                  (sample.client "acme") 7%nat "POST"
                  "https://api.asgardeo.io/t/acme/api/server/v1/applications"
                  (pointer (Some 3%nat))
                  (sample.start (W := sample.answering 404 "application not found")
                     "{name}")))
    = ([] ++ EvSend (authorized (sample.client "acme") (sample.posted "{name}"))
          :: evs ++ [EvClose])%list
    /\ List.filter isClose evs = [].
Proof.
  destruct (Request_closes_body_once (W := sample.answering 404 "application not found")
              (sample.client "acme") 7%nat "POST"
              "https://api.asgardeo.io/t/acme/api/server/v1/applications"
              (pointer (Some 3%nat))
              (sample.start (W := sample.answering 404 "application not found") "{name}")
              (sample.posted "{name}")
              {| http.Response.StatusCode := 404;
                 http.Response.Body := Ok "application not found" |}
              eq_refl eq_refl) as [evs [Htrace [Hclose _]]].
  exists evs. split; [exact Htrace | exact Hclose].
Defined.

(** X8: [Request] never retries: whatever happens, it hands exactly one
    request to the transport when the request could be built and none
    otherwise, and it closes a body only if a response came back. *)
Theorem Request_single_round_trip {W : World} (c : api.httpClient) (ctx : Context)
    (method uri : string) (payload : iface) (σ : State) :
  exists evs : list event,
    trace (snd (api.Request c ctx method uri payload σ)) = (trace σ ++ evs)%list
    /\ length (List.filter isSend evs)
       = match fst (api.NewRequest c ctx method uri payload σ) with
         | Ok _ => 1%nat
         | Err _ => 0%nat
         end
    /\ length (List.filter isClose evs)
       = match fst (api.NewRequest c ctx method uri payload σ) with
         | Ok request =>
             match client_Do (authorized c request) with
             | Ok _ => 1%nat
             | Err _ => 0%nat
             end
         | Err _ => 0%nat
         end.
Proof.
  destruct (fst (api.NewRequest c ctx method uri payload σ)) as [request|err] eqn:Hnew.
  - destruct (client_Do (authorized c request)) as [response|err] eqn:Hsend.
    + destruct (Request_answered_trace c ctx method uri payload σ request response
                  Hnew Hsend) as [evs [Htrace Hevs]].
      destruct (log_only evs Hevs) as [Hclose Hsends].
      exists (EvSend (authorized c request) :: evs ++ [EvClose])%list.
      split; [exact Htrace|].
      cbn [List.filter isSend isClose]. rewrite !List.filter_app, Hclose, Hsends.
      now split.
    + exists [EvSend (authorized c request);
              EvLog "failed to send the request with http client"].
      rewrite Request_outcome, Hnew. cbn zeta. rewrite Hsend.
      cbn [snd]. rewrite emitted_emitted. now repeat split.
  - exists []. rewrite Request_outcome, Hnew. cbn [snd].
    now rewrite List.app_nil_r.
Qed.

(** ** The client from its construction to the wire *)

(** X10: a client is built exactly when the tenant is found and the base
    URL parses.  A failure of either is returned as it is, after one log
    entry; a built client holds the tenant's access token, the base path
    "t/<tenant>/api/server/v1" and the parsed base URL, and building it
    logs nothing. *)
Theorem NewHTTPClientAPI_outcome {W : World} (cfg : Config) (tenantDomain : string)
    (σ : State) :
  (forall err : error,
      GetTenant cfg tenantDomain = Err err ->
      api.NewHTTPClientAPI cfg tenantDomain σ
      = (Err err, emitted σ [EvLog "failed to get tenant while creating http client"]))
  /\ (forall (tenant : Tenant) (err : error),
         GetTenant cfg tenantDomain = Ok tenant ->
         url_Parse "https://api.asgardeo.io/" = Err err ->
         api.NewHTTPClientAPI cfg tenantDomain σ
         = (Err err,
            emitted σ [EvLog "failed to parse base URL while creating http client"]))
  /\ (forall (c : api.httpClient) (σ' : State),
         api.NewHTTPClientAPI cfg tenantDomain σ = (Ok c, σ') ->
         σ' = σ
         /\ exists tenant : Tenant,
             GetTenant cfg tenantDomain = Ok tenant
             /\ url_Parse "https://api.asgardeo.io/" = Ok (api.baseUrl c)
             /\ api.basepath c = "t/" +:+ Tenant_Name tenant +:+ "/api/server/v1"
             /\ api.token c = GetAccessToken tenant).
Proof.
  split; [|split].
  - unfold api.NewHTTPClientAPI. now intros err ->.
  - unfold api.NewHTTPClientAPI. now intros tenant err -> ->.
  - intros c σ'. apply NewHTTPClientAPI_built.
Qed.

Lemma NewHTTPClientAPI_outcome_witness :
  exists tenant : @Tenant (sample.answering 200 "{}"),
    @GetTenant (sample.answering 200 "{}") tt "acme" = Ok tenant
    /\ api.token (sample.client "acme")
       = @GetAccessToken (sample.answering 200 "{}") tenant.
Proof.
  destruct (proj2 (proj2 (NewHTTPClientAPI_outcome (W := sample.answering 200 "{}")
                            tt "acme" (sample.start (W := sample.answering 200 "{}") "")))
              (sample.client "acme") (sample.start (W := sample.answering 200 "{}") "")
              eq_refl) as [_ [tenant [Ht [_ [_ Htoken]]]]].
  exists tenant. split; [exact Ht | exact Htoken].
Defined.

(** X11: every request that a client built for a tenant puts on the wire
    through [Request] carries both headers, Authorization with the
    tenant's access token as bearer and Content-Type application/json,
    each with that single value; its body is the encoded payload and its
    context is the one given to [Request]. *)
Theorem Request_sends_tenant_token {W : World} (cfg : Config) (tenantDomain : string)
    (tenant : Tenant) (σ0 σ0' : State) (c : api.httpClient) (ctx : Context)
    (method uri : string) (payload : iface) (σ : State) (request : http.Request.t) :
  GetTenant cfg tenantDomain = Ok tenant ->
  api.NewHTTPClientAPI cfg tenantDomain σ0 = (Ok c, σ0') ->
  fst (api.NewRequest c ctx method uri payload σ) = Ok request ->
  exists (sent : http.Request.t) (rest : list event),
    trace (snd (api.Request c ctx method uri payload σ))
    = (trace σ ++ EvSend sent :: rest)%list
    /\ List.filter isSend rest = []
    /\ http.Header.Values (http.Request.Header sent) "Authorization"
       = ["Bearer " +:+ GetAccessToken tenant]
    /\ http.Header.Values (http.Request.Header sent) "Content-Type"
       = ["application/json"]
    /\ requestBody payload σ = Ok (http.Request.Body sent)
    /\ http.Request.ctx sent = ctx.
Proof.
  intros Htenant Hclient Hnew.
  destruct (NewHTTPClientAPI_built cfg tenantDomain σ0 σ0' c Hclient)
    as [_ [tenant' [Htenant' [_ [_ Htoken]]]]].
  rewrite Htenant in Htenant'. injection Htenant' as <-.
  destruct (NewRequest_fields _ _ _ _ _ _ _ Hnew) as [Hbody [Hctx Hheader]].
  assert (Hrest : exists rest : list event,
             trace (snd (api.Request c ctx method uri payload σ))
             = (trace σ ++ EvSend (authorized c request) :: rest)%list
             /\ List.filter isSend rest = []).
  { destruct (client_Do (authorized c request)) as [response|err] eqn:Hsend.
    - destruct (Request_answered_trace c ctx method uri payload σ request response
                  Hnew Hsend) as [evs [Htrace Hevs]].
      destruct (log_only evs Hevs) as [_ Hsends].
      exists (evs ++ [EvClose])%list. split; [exact Htrace|].
      now rewrite List.filter_app, Hsends.
    - exists [EvLog "failed to send the request with http client"].
      rewrite Request_outcome, Hnew. cbn zeta. rewrite Hsend.
      cbn [snd]. rewrite emitted_emitted. now split. }
  destruct Hrest as [rest [Htrace Hsends]].
  exists (authorized c request), rest.
  split; [exact Htrace|]. split; [exact Hsends|].
  unfold authorized.
  cbn [http.Request.setHeader http.Request.Header http.Request.Body http.Request.ctx].
  split; [rewrite Htoken; apply Values_Set|].
  split.
  - rewrite Values_Set_other by (intros H; vm_compute in H; discriminate).
    rewrite Hheader. apply Values_Add_empty.
  - now split.
Qed.

Lemma Request_sends_tenant_token_witness :
  exists (sent : http.Request.t) (rest : list event),
    trace (snd (api.Request (W := sample.answering 201 "{id}") (sample.client "acme")
                  7%nat "POST" "https://api.asgardeo.io/t/acme/api/server/v1/applications"
                  (pointer (Some 3%nat))
                  (sample.start (W := sample.answering 201 "{id}") "{name}")))
    = ([] ++ EvSend sent :: rest)%list
    /\ http.Header.Values (http.Request.Header sent) "Authorization"
       = ["Bearer token-of-acme"].
Proof.
  destruct (Request_sends_tenant_token (W := sample.answering 201 "{id}") tt "acme"
              ("acme", "token-of-acme")
              (sample.start (W := sample.answering 201 "{id}") "")
              (sample.start (W := sample.answering 201 "{id}") "")
              (sample.client "acme") 7%nat "POST"
              "https://api.asgardeo.io/t/acme/api/server/v1/applications"
              (pointer (Some 3%nat))
              (sample.start (W := sample.answering 201 "{id}") "{name}")
              (sample.posted "{name}") eq_refl eq_refl eq_refl)
    as [sent [rest [Htrace [_ [Hauth _]]]]].
  exists sent, rest. split; [exact Htrace | exact Hauth].
Defined.

(** X12: building a request changes nothing (no heap cell, no event), the
    request carries the given context, and its body is empty exactly when
    the payload serializes to the null token (as the nil interface does);
    any other payload gives its encoding followed by a newline. *)
Theorem NewRequest_body {W : World} (c : api.httpClient) (ctx : Context)
    (method uri : string) (payload : iface) (σ : State) (request : http.Request.t) :
  fst (api.NewRequest c ctx method uri payload σ) = Ok request ->
  snd (api.NewRequest c ctx method uri payload σ) = σ
  /\ http.Request.ctx request = ctx
  /\ (http.Request.Body request = "" <-> fst (json.Marshal payload σ) = Ok "null")
  /\ (forall encoding : string,
         fst (json.Marshal payload σ) = Ok encoding ->
         encoding <> "null" ->
         http.Request.Body request = encoding +:+ json.newline).
Proof.
  intros Hnew.
  destruct (NewRequest_fields _ _ _ _ _ _ _ Hnew) as [Hbody [Hctx _]].
  split; [now rewrite NewRequest_run|]. split; [exact Hctx|].
  assert (Hcases : fst (json.Marshal payload σ) = Ok "null"
                   /\ http.Request.Body request = ""
                   \/ exists encoding : string,
                       fst (json.Marshal payload σ) = Ok encoding
                       /\ encoding <> "null"
                       /\ http.Request.Body request = encoding +:+ json.newline).
  { unfold requestBody in Hbody.
    destruct payload as [|p|v]; [left; split; [reflexivity|congruence]| |];
      (destruct (fst (json.Marshal _ σ)) as [s|] eqn:Hm; [|discriminate];
       cbn zeta in Hbody;
       destruct (String.eqb (s +:+ json.newline) api.nullBody) eqn:E;
       [ apply String.eqb_eq in E; apply app_inj_r in E; subst s;
         left; split; [reflexivity|congruence]
       | right; exists s; split; [reflexivity|]; split; [|congruence];
         intros ->; now rewrite String.eqb_refl in E ]). }
  split.
  - destruct Hcases as [[Hnull Hempty]|[encoding [Hm [Hne Hb]]]].
    + now split.
    + split.
      * intros Hempty. rewrite Hb in Hempty.
        apply (f_equal String.length) in Hempty. rewrite length_app in Hempty.
        simpl in Hempty. lia.
      * intros Hnull. congruence.
  - intros encoding Hm Hne.
    destruct Hcases as [[Hnull _]|[encoding' [Hm' [_ Hb]]]]; congruence.
Qed.

Lemma NewRequest_body_witness :
  http.Request.Body (sample.posted "{name}") = "{name}" +:+ json.newline.
Proof.
  refine (proj2 (proj2 (proj2 (NewRequest_body (W := sample.answering 200 "{}")
            (sample.client "acme") 7%nat "POST"
            "https://api.asgardeo.io/t/acme/api/server/v1/applications"
            (pointer (Some 3%nat)) (sample.start (W := sample.answering 200 "{}") "{name}")
            (sample.posted "{name}") eq_refl))) "{name}" eq_refl _).
  discriminate.
Defined.

(** ** The runner *)

Section RunnerFacts.
Context {W : World} {H : runner.Host}.

Lemma configLogger_quiet :
  List.filter runner.isExit (snd runner.configLogger) = []
  /\ List.filter runner.isStderr (snd runner.configLogger) = []
  /\ List.filter runner.isSync (snd runner.configLogger) = [].
Proof.
  unfold runner.configLogger.
  destruct runner.os_Getwd as [cwd|]; [|now repeat split].
  destruct (runner.os_MkdirAll _ _); now repeat split.
Qed.

(** The run of a command that needs a session when there is none. *)
Lemma execute_refused commandPath ctx RunE (σ : State) err :
  cmd.commandRequiresAuthentication commandPath = true ->
  SetupWithAuthentication ctx = Some err ->
  cmd.execute commandPath ctx RunE σ
  = (Some (wrapError ("authentication failed: " +:+ fmt.Error err) err),
     emitted σ [EvSetup ctx; EvLog "Authentication setup failed"]).
Proof.
  intros Hauth Hsetup.
  unfold cmd.execute, cmd.PersistentPreRunE, bind, ret, emit, emitted.
  rewrite Hauth, Hsetup. simpl. now rewrite <- List.app_assoc.
Qed.

End RunnerFacts.

(** X13: [configLogger] returns a logger only after it has created the
    directory "logs" under the working directory (mode 0755), and that
    logger writes both its entries and its own errors to the one file
    "asgardeo-cli.log" in that directory.  When the working directory is
    not known nothing is created; when the directory cannot be created no
    logger is built; both errors come back wrapped. *)
Theorem configLogger_outcome {H : runner.Host} :
  (forall err : error,
      runner.os_Getwd = Err err ->
      runner.configLogger
      = (Err (wrapError ("failed to get user home directory: " +:+ fmt.Error err) err), []))
  /\ (forall (cwd : string) (err : error),
         runner.os_Getwd = Ok cwd ->
         runner.os_MkdirAll (runner.filepath_Join cwd "logs") 493 = Some err ->
         runner.configLogger
         = (Err (wrapError ("failed to create log directory: " +:+ fmt.Error err) err),
            [runner.FxMkdirAll (runner.filepath_Join cwd "logs") 493]))
  /\ (forall logger : runner.Logger,
         fst runner.configLogger = Ok logger ->
         exists cwd : string,
           runner.os_Getwd = Ok cwd
           /\ let logDir := runner.filepath_Join cwd "logs" in
              let file := runner.filepath_Join logDir "asgardeo-cli.log" in
              runner.OutputPaths logger = [file]
              /\ runner.ErrorOutputPaths logger = [file]
              /\ snd runner.configLogger
                 = [runner.FxMkdirAll logDir 493; runner.FxBuild [file] [file]]).
Proof.
  unfold runner.configLogger. split; [|split].
  - now intros err ->.
  - intros cwd err ->. cbn zeta. now intros ->.
  - intros logger. destruct runner.os_Getwd as [cwd|]; [|discriminate].
    cbn zeta. destruct (runner.os_MkdirAll _ _); [discriminate|].
    destruct (runner.zap_Build _ _); [discriminate|].
    cbn [fst snd]. intros [= <-]. now exists cwd.
Qed.

Lemma configLogger_outcome_witness :
  exists cwd : string,
    @runner.os_Getwd runner.homeHost = Ok cwd
    /\ runner.OutputPaths
         {| runner.OutputPaths := ["/home/dev/logs/asgardeo-cli.log"];
            runner.ErrorOutputPaths := ["/home/dev/logs/asgardeo-cli.log"] |}
       = [@runner.filepath_Join runner.homeHost
            (@runner.filepath_Join runner.homeHost cwd "logs") "asgardeo-cli.log"].
Proof.
  destruct (proj2 (proj2 (configLogger_outcome (H := runner.homeHost)))
              {| runner.OutputPaths := ["/home/dev/logs/asgardeo-cli.log"];
                 runner.ErrorOutputPaths := ["/home/dev/logs/asgardeo-cli.log"] |}
              eq_refl) as [cwd [Hcwd [Hout _]]].
  exists cwd. split; [exact Hcwd | exact Hout].
Defined.

(** X14: when the logger cannot be set up, [Execute] runs no command (no
    session setup, no body, the state is as it was), whatever the command
    line: it writes "Error initializing logger: " and the error to
    standard error and exits with status 1; the configuration has been
    made before, with no logger. *)
Theorem Execute_logger_failure {W : World} {H : runner.Host}
    (d : runner.dispatch) (ctx : Context) (σ : State) (err : error) :
  fst runner.configLogger = Err err ->
  runner.Execute d ctx σ
  = (σ, (snd runner.configLogger
         ++ [runner.FxNewConfig false;
             runner.FxStderr ("Error initializing logger: " +:+ fmt.Error err
                              +:+ json.newline);
             runner.FxExit 1])%list).
Proof.
  intros Hlogger. unfold runner.Execute.
  destruct runner.configLogger as [logger made]. cbn [fst snd] in *.
  now rewrite Hlogger.
Qed.

Lemma Execute_logger_failure_witness :
  runner.Execute (W := sample.noSession) (H := runner.lostHost)
    (runner.runs "asgardeo login" (ret None)) 7%nat
    (sample.start (W := sample.noSession) "")
  = (sample.start (W := sample.noSession) "",
     [runner.FxNewConfig false;
      runner.FxStderr
        ("Error initializing logger: failed to get user home directory: "
         +:+ "getwd: no such file or directory" +:+ json.newline);
      runner.FxExit 1]).
Proof.
  exact (Execute_logger_failure (W := sample.noSession) (H := runner.lostHost)
           (runner.runs "asgardeo login" (ret None)) 7%nat
           (sample.start (W := sample.noSession) "")
           _ eq_refl).
Defined.

(** X15: with a logger set up and a session setup that fails, a command
    line that cobra takes to the run of a command requiring
    authentication ends the process with status 1 after "Error:
    authentication failed: " and the setup's error on standard error; the
    body has not run, whatever it is, and the logger has two entries.  A
    command line that cobra answers by itself (help, version) reaches no
    hook: no session is set up, nothing is written to standard error and
    [Execute] returns after flushing the logger.  One that cobra refuses
    exits with status 1 and that error, again with no session setup. *)
Theorem Execute_without_session {W : World} {H : runner.Host}
    (commandPath : string) (ctx : Context) (RunE : M (option error)) (σ : State)
    (logger : runner.Logger) (err : error) :
  fst runner.configLogger = Ok logger ->
  cmd.commandRequiresAuthentication commandPath = true ->
  SetupWithAuthentication ctx = Some err ->
  runner.Execute (runner.runs commandPath RunE) ctx σ
  = (emitted σ [EvSetup ctx; EvLog "Authentication setup failed";
                EvLog "Command execution failed"],
     (snd runner.configLogger
      ++ [runner.FxNewConfig true;
          runner.FxStderr ("Error: authentication failed: " +:+ fmt.Error err
                           +:+ json.newline);
          runner.FxExit 1])%list)
  /\ runner.Execute runner.answers ctx σ
     = (σ, (snd runner.configLogger
            ++ [runner.FxNewConfig true; runner.FxCancel; runner.FxSync])%list)
  /\ (forall refusal : error,
         runner.Execute (runner.refuses refusal) ctx σ
         = (emitted σ [EvLog "Command execution failed"],
            (snd runner.configLogger
             ++ [runner.FxNewConfig true;
                 runner.FxStderr ("Error: " +:+ fmt.Error refusal +:+ json.newline);
                 runner.FxExit 1])%list)).
Proof.
  intros Hlogger Hauth Hsetup. unfold runner.Execute.
  destruct runner.configLogger as [made fx]. cbn [fst snd] in *. subst made.
  split; [|now split].
  cbn [runner.ExecuteContext].
  rewrite (execute_refused _ _ _ _ _ Hauth Hsetup).
  now rewrite emitted_emitted.
Qed.

Lemma Execute_without_session_witness :
  runner.Execute (W := sample.noSession) (H := runner.homeHost)
    (runner.runs "asgardeo applications list"
       (emit (EvLog "listing applications") ;; ret None))
    7%nat (sample.start (W := sample.noSession) "")
  = (emitted (sample.start (W := sample.noSession) "")
       [EvSetup 7%nat; EvLog "Authentication setup failed";
        EvLog "Command execution failed"],
     [runner.FxMkdirAll "/home/dev/logs" 493;
      runner.FxBuild ["/home/dev/logs/asgardeo-cli.log"]
        ["/home/dev/logs/asgardeo-cli.log"];
      runner.FxNewConfig true;
      runner.FxStderr ("Error: authentication failed: no active session"
                       +:+ json.newline);
      runner.FxExit 1])
  /\ runner.Execute (W := sample.noSession) (H := runner.homeHost)
       runner.answers 7%nat (sample.start (W := sample.noSession) "")
     = (sample.start (W := sample.noSession) "",
        [runner.FxMkdirAll "/home/dev/logs" 493;
         runner.FxBuild ["/home/dev/logs/asgardeo-cli.log"]
           ["/home/dev/logs/asgardeo-cli.log"];
         runner.FxNewConfig true; runner.FxCancel; runner.FxSync]).
Proof.
  destruct (Execute_without_session (W := sample.noSession) (H := runner.homeHost)
              "asgardeo applications list" 7%nat
              (emit (EvLog "listing applications") ;; ret None)
              (sample.start (W := sample.noSession) "")
              _ (errorString "no active session") eq_refl eq_refl eq_refl)
    as [Hruns [Hanswers _]].
  split; [exact Hruns | exact Hanswers].
Defined.

(** X16: every run of [Execute] ends in exactly one of two ways: it exits,
    always with status 1 and after writing exactly one message of its own
    to standard error, or it returns after flushing the logger, having
    written nothing there itself.  It flushes exactly when the logger was
    set up and cobra returned no error: a run that fails exits without
    the deferred [logger.Sync()], although it has just logged the
    failure. *)
Theorem Execute_exits_or_flushes {W : World} {H : runner.Host}
    (d : runner.dispatch) (ctx : Context) (σ : State) :
  let fx := snd (runner.Execute d ctx σ) in
  let succeeded :=
    match fst runner.configLogger with
    | Ok _ =>
        match fst (runner.ExecuteContext d ctx σ) with
        | None => true
        | Some _ => false
        end
    | Err _ => false
    end in
  length (List.filter runner.isSync fx) = (if succeeded then 1 else 0)%nat
  /\ length (List.filter runner.isExit fx) = (if succeeded then 0 else 1)%nat
  /\ length (List.filter runner.isStderr fx) = (if succeeded then 0 else 1)%nat
  /\ (forall code : Z, In (runner.FxExit code) fx ->
      code = 1 /\ exists before : list runner.effect, fx = (before ++ [runner.FxExit 1])%list)
  /\ (succeeded = false ->
      exists text : string,
        List.last fx runner.FxSync = runner.FxExit 1
        /\ In (runner.FxStderr text) fx).
Proof.
  cbn zeta. unfold runner.Execute.
  destruct configLogger_quiet as [Hexit [Hstderr Hsync]].
  destruct runner.configLogger as [logger made]. cbn [fst snd] in *.
  assert (Hin : forall code, ~ In (runner.FxExit code) made).
  { intros code Hcode.
    assert (Hf : In (runner.FxExit code) (List.filter runner.isExit made))
      by (apply List.filter_In; now split).
    now rewrite Hexit in Hf. }
  destruct logger as [logger|err].
  - destruct (runner.ExecuteContext d ctx σ) as [[err|] σ']; cbn [fst snd].
    + rewrite !List.filter_app, Hexit, Hstderr, Hsync. cbn.
      split; [reflexivity|]. split; [reflexivity|]. split; [reflexivity|]. split.
      * intros code Hcode. apply List.in_app_or in Hcode as [Hcode|Hcode];
          [now destruct (Hin code)|].
        cbn in Hcode. destruct Hcode as [Hc|[Hc|[Hc|[]]]]; try discriminate.
        injection Hc as <-. split; [reflexivity|].
        eexists (made ++ [_; _])%list. now rewrite <- List.app_assoc.
      * intros _. eexists. split.
        -- change [runner.FxNewConfig true;
                   runner.FxStderr ("Error: " +:+ fmt.Error err +:+ json.newline);
                   runner.FxExit 1]
             with ([runner.FxNewConfig true;
                    runner.FxStderr ("Error: " +:+ fmt.Error err +:+ json.newline)]
                   ++ [runner.FxExit 1])%list.
           rewrite List.app_assoc. apply List.last_last.
        -- apply List.in_or_app. right. cbn. auto.
    + rewrite !List.filter_app, Hexit, Hstderr, Hsync. cbn.
      split; [reflexivity|]. split; [reflexivity|]. split; [reflexivity|]. split.
      * intros code Hcode. apply List.in_app_or in Hcode as [Hcode|Hcode];
          [now destruct (Hin code)|].
        cbn in Hcode. destruct Hcode as [|[|[|[]]]]; discriminate.
      * discriminate.
  - cbn [fst snd].
    rewrite !List.filter_app, Hexit, Hstderr, Hsync. cbn.
    split; [reflexivity|]. split; [reflexivity|]. split; [reflexivity|]. split.
    + intros code Hcode. apply List.in_app_or in Hcode as [Hcode|Hcode];
        [now destruct (Hin code)|].
      cbn in Hcode. destruct Hcode as [Hc|[Hc|[Hc|[]]]]; try discriminate.
      injection Hc as <-. split; [reflexivity|].
      eexists (made ++ [_; _])%list. now rewrite <- List.app_assoc.
    + intros _. eexists. split.
      * change [runner.FxNewConfig false;
                runner.FxStderr ("Error initializing logger: " +:+ fmt.Error err
                                 +:+ json.newline);
                runner.FxExit 1]
          with ([runner.FxNewConfig false;
                 runner.FxStderr ("Error initializing logger: " +:+ fmt.Error err
                                  +:+ json.newline)]
                ++ [runner.FxExit 1])%list.
        rewrite List.app_assoc. apply List.last_last.
      * apply List.in_or_app. right. cbn. auto.
Qed.

(** ** What the result of [Request] tells its caller *)

(** X17: [Request] returns no error only if the request was built, the
    transport answered it with a status below 400, the body was read, and
    the body was empty, "{}" or decoded without error. *)
Theorem Request_success_means_answered {W : World} (c : api.httpClient) (ctx : Context)
    (method uri : string) (payload : iface) (σ : State) :
  fst (api.Request c ctx method uri payload σ) = None ->
  exists (request : http.Request.t) (response : http.Response.t) (responseBody : string),
    fst (api.NewRequest c ctx method uri payload σ) = Ok request
    /\ client_Do (authorized c request) = Ok response
    /\ http.Response.StatusCode response < 400
    /\ http.Response.Body response = Ok responseBody
    /\ (responseBody = "" \/ responseBody = "{}"
        \/ fst (json.Unmarshal responseBody payload
                  (emitted σ [EvSend (authorized c request)])) = None).
Proof.
  rewrite Request_outcome.
  destruct (fst (api.NewRequest c ctx method uri payload σ)) as [request|];
    [|discriminate].
  cbn zeta. destruct (client_Do (authorized c request)) as [response|] eqn:Hsend;
    [|discriminate].
  destruct (400 <=? http.Response.StatusCode response) eqn:Hstatus; [discriminate|].
  apply Z.leb_gt in Hstatus.
  destruct (http.Response.Body response) as [responseBody|] eqn:Hbody; [|discriminate].
  intros Hnone. exists request, response, responseBody.
  repeat (split; [first [reflexivity | assumption]|]).
  destruct ((0 <? String.length responseBody)%nat) eqn:Hlen.
  - destruct (String.eqb responseBody "{}") eqn:Hobj.
    + right. left. now apply String.eqb_eq.
    + right. right. cbn in Hnone.
      now destruct (fst (json.Unmarshal responseBody payload _)).
  - left. now apply length_zero_iff.
Qed.

Lemma Request_success_means_answered_witness :
  exists (request : http.Request.t) (response : http.Response.t) (responseBody : string),
    fst (api.NewRequest (W := sample.answering 201 "{id}") (sample.client "acme") 7%nat
           "POST" "https://api.asgardeo.io/t/acme/api/server/v1/applications"
           (pointer (Some 3%nat))
           (sample.start (W := sample.answering 201 "{id}") "{name}"))
    = Ok request
    /\ http.Response.StatusCode response < 400
    /\ http.Response.Body response = Ok responseBody.
Proof.
  destruct (Request_success_means_answered (W := sample.answering 201 "{id}")
              (sample.client "acme") 7%nat "POST"
              "https://api.asgardeo.io/t/acme/api/server/v1/applications"
              (pointer (Some 3%nat))
              (sample.start (W := sample.answering 201 "{id}") "{name}") eq_refl)
    as [request [response [responseBody [Hnew [_ [Hstatus [Hbody _]]]]]]].
  exists request, response, responseBody. now repeat split.
Defined.

(** X18: an error returned by [Request] is either the one [newError]
    makes from a response with a status of 400 or more, or a cause wrapped
    one level deep under one of four fixed prefixes, so that
    [errors.Unwrap] gives the cause and [errors.Is] finds it. *)
Theorem Request_error_kinds {W : World} (c : api.httpClient) (ctx : Context)
    (method uri : string) (payload : iface) (σ : State) (e : error) :
  fst (api.Request c ctx method uri payload σ) = Some e ->
  (exists response : http.Response.t,
      e = api.newError response /\ 400 <= http.Response.StatusCode response)
  \/ (exists (prefix : string) (cause : error),
         e = wrapError (prefix +:+ fmt.Error cause) cause
         /\ fmt.Unwrap e = Some cause
         /\ errors.Is e cause = true
         /\ In prefix ["failed to create a new request: ";
                       "failed to send the request: ";
                       "failed to read the response body: ";
                       "failed to unmarshal response payload: "]).
Proof.
  assert (Hwrap : forall prefix cause,
             In prefix ["failed to create a new request: ";
                        "failed to send the request: ";
                        "failed to read the response body: ";
                        "failed to unmarshal response payload: "] ->
             Some (fmt.Errorf_w prefix cause) = Some e ->
             exists (prefix : string) (cause : error),
               e = wrapError (prefix +:+ fmt.Error cause) cause
               /\ fmt.Unwrap e = Some cause
               /\ errors.Is e cause = true
               /\ In prefix ["failed to create a new request: ";
                             "failed to send the request: ";
                             "failed to read the response body: ";
                             "failed to unmarshal response payload: "]).
  { intros prefix cause Hin [= <-]. exists prefix, cause.
    split; [reflexivity|]. split; [reflexivity|].
    split; [apply Is_wrapped, Is_refl | exact Hin]. }
  rewrite Request_outcome.
  destruct (fst (api.NewRequest c ctx method uri payload σ)) as [request|err].
  - cbn zeta. destruct (client_Do (authorized c request)) as [response|err].
    + destruct (400 <=? http.Response.StatusCode response) eqn:Hstatus.
      * intros [= <-]. left. exists response. split; [reflexivity|].
        now apply Z.leb_le.
      * destruct (http.Response.Body response) as [responseBody|err].
        -- destruct (_ && _); [|discriminate]. cbn [fst].
           destruct (fst (json.Unmarshal responseBody payload _)) as [err|];
             [|discriminate].
           intros He. right. eapply Hwrap; [|exact He]; cbn; auto.
        -- intros He. right. eapply Hwrap; [|exact He]; cbn; auto.
    + intros He. right. eapply Hwrap; [|exact He]; cbn; auto.
  - intros He. right. eapply Hwrap; [|exact He]; cbn; auto.
Qed.

Lemma Request_error_kinds_witness :
  exists (prefix : string) (cause : error),
    wrapError "failed to send the request: context canceled" sample.Canceled
    = wrapError (prefix +:+ fmt.Error cause) cause
    /\ In prefix ["failed to create a new request: ";
                  "failed to send the request: ";
                  "failed to read the response body: ";
                  "failed to unmarshal response payload: "].
Proof.
  destruct (Request_error_kinds (W := sample.failing (Some sample.Canceled))
              (sample.client "acme") 7%nat "POST"
              "https://api.asgardeo.io/t/acme/api/server/v1/applications"
              (pointer (Some 3%nat))
              (sample.start (W := sample.failing (Some sample.Canceled)) "{name}")
              (wrapError "failed to send the request: context canceled" sample.Canceled)
              eq_refl)
    as [[response [Hresponse _]]|[prefix [cause [He [_ [_ Hin]]]]]].
  - discriminate Hresponse.
  - exists prefix, cause. split; [exact He | exact Hin].
Defined.
